(** * Astroid: process entry, single-instance activation and window set-up

    A shallow embedding of [src/astroid.cc] (class [Astroid::Astroid]):
    [main], [on_quit], [open_new_window], [on_signal_activate],
    [on_mailto_activate] and [send_mailto].

    The C++ code mutates the application object, writes to the log, talks to
    the GTK application object and leaves through [exit] or through a C++
    exception.  It is embedded in a small state-and-exit monad [M] over the
    record [Astroid]; every call into a collaborator that is not part of this
    file (log, GTK, Config, the subsystems) is recorded as an [effect] in the
    [trace] field, in program order. *)

From Stdlib Require Import String Ascii ZArith Lia.
From stdpp Require Import base list.

Open Scope string_scope.
Open Scope list_scope.

(** ** Glib::ustring

    A [ustring] is indexed by character, and so is [string]: the operations
    the source uses ([length], [substr], [find]) are those of [String], and
    a position is a character position.  The characters that decide where
    [send_mailto] cuts (the characters of a scheme, [':'] and ['?']) are
    ASCII. *)

Definition ustring := string.

Module Glib.

(** [g_ascii_isalpha], [g_ascii_isdigit]: ASCII classification (GLib). *)
Definition g_ascii_isalpha (c : ascii) : bool :=
  let n := nat_of_ascii c in
  (((65 <=? n) && (n <=? 90)) || ((97 <=? n) && (n <=? 122)))%nat.

Definition g_ascii_isdigit (c : ascii) : bool :=
  let n := nat_of_ascii c in ((48 <=? n) && (n <=? 57))%nat.

Definition g_ascii_isalnum (c : ascii) : bool :=
  g_ascii_isalpha c || g_ascii_isdigit c.

(** The scan loop of [g_uri_parse_scheme]: walk to the first [':'];
    every character before it must be ALPHA / DIGIT / "+" / "-" / ".".
    The result is the number of characters before the colon.  Reaching the
    end of the text (the terminating NUL in C) is a failure. *)
Fixpoint scheme_scan (s : string) : option nat :=
  match s with
  | EmptyString => None
  | String c r =>
      if Ascii.eqb c ":"%char then Some 0
      else if g_ascii_isalnum c || Ascii.eqb c "+"%char
              || Ascii.eqb c "-"%char || Ascii.eqb c "."%char
      then option_map S (scheme_scan r)
      else None
  end.

(** GLib's [g_uri_parse_scheme] (RFC 3986:
    URI = scheme ":" hier-part, scheme = ALPHA *( ALPHA / DIGIT / "+" /
    "-" / "." )).  It returns the scheme, that is the text in front of the
    colon, without the colon, or NULL when the text does not start with
    a scheme. *)
Definition g_uri_parse_scheme (uri : string) : option string :=
  match uri with
  | EmptyString => None
  | String c _ =>
      if g_ascii_isalpha c then
        match scheme_scan uri with
        | Some n => Some (substring 0 n uri)
        | None => None
        end
      else None
  end.

(** [Glib::uri_parse_scheme] (glibmm): the wrapper turns NULL into the
    empty string. *)
Definition uri_parse_scheme (uri : ustring) : ustring :=
  match g_uri_parse_scheme uri with
  | Some s => s
  | None => EmptyString
  end.

End Glib.

(** ** Data *)

(** Severities of [log.hh] as used in [log << info << ...]. *)
Inductive LogLevel := debug | info | warn | error.

(** The modes this file creates: [new SavedSearches (mw)],
    [new ThreadIndex (mw, query, name)], [new EditMessage (mw, to)]. *)
Inductive ModeKind :=
| new_SavedSearches
| new_ThreadIndex (query name : ustring)
| new_EditMessage (to : ustring).

(** Modelled from the spec: [Mode] (modes/mode.hh is not among the
    sources).  The only member this file touches is the flag [invincible],
    which [open_new_window] sets to [true] on the start-up modes; a mode
    that is not flagged has it [false]. *)
Record Mode := { kind : ModeKind; invincible : bool }.

(** Modelled from the spec: [MainWindow] (main_window.hh is not among the
    sources).  "Each window owns an ordered sequence of modes":
    [add_mode] appends to [modes], [set_active n] makes the mode at position
    [n] the visible one, and [show_all] shows the window. *)
Record MainWindow := {
  modes : list Mode;
  active : option nat;
  shown : bool }.

(** What this file reads from [Config]: [test], the keys
    [saved_searches.show_on_startup] and [startup.queries] (a property tree,
    iterated in the order its entries were declared; an entry is a name and a
    query) and [database.path] of the notmuch configuration. *)
Record Config := {
  test : bool;
  show_on_startup : bool;
  startup_queries : list (ustring * ustring);
  database_path : ustring }.

(** The three ways [main] constructs its [Config]:
    [new Config (path)], [new Config (true)], [new Config ()]. *)
Inductive ConfigSource :=
| config_file (p : ustring)
| config_test
| config_default.

(** The subsystems set up by [main], named as in the source. *)
Inductive Subsystem :=
| Date | Utils | Db | Keybindings | SavedSearches
| AccountManager | PluginManager | ActionManager | Poll.

(** Calls into collaborators, recorded in program order. *)
Inductive effect :=
| cout (s : string)                                (* cout << s << endl *)
| cout_desc                                        (* cout << desc << endl: the help text *)
| log_line (l : LogLevel) (s : string)             (* log << l << s << endl *)
| log_plain (s : string)                           (* log << s << endl *)
| logf_opened (f : ustring) (append : bool)        (* logf.open (f, ...) *)
| log_add_logf                                     (* log.add_out_stream (&logf) *)
| log_del_logf                                     (* log.del_out_stream (&logf) *)
| logf_closed                                      (* logf.close () *)
| config_written (p : ustring)                     (* ncnf.load_config (true) *)
| app_created (id : string)                        (* Gtk::Application::create *)
| app_registered                                   (* app->register_application () is called *)
| app_activate                                     (* app->activate () *)
| app_activate_action (name : string) (param : ustring)
| connect_activate                                 (* app->signal_activate().connect *)
| add_action (name : string)                       (* app->add_action (mailto) *)
| config_loaded (src : ConfigSource)               (* m_config = new Config (...) *)
| init (s : Subsystem) (args : list bool)          (* X::init () / new X (args) *)
| teardown (s : Subsystem)                         (* close / destruct / delete *)
| mw_add_mode (mw : nat) (m : Mode)                (* mw->add_mode (m) *)
| mw_set_active (mw : nat) (n : nat)               (* mw->set_active (n) *)
| app_add_window (mw : nat)                        (* app->add_window ( *mw ) *)
| show_all (mw : nat).                             (* mw->show_all () *)

(** The application object.  A [MainWindow *] is a position in [windows],
    the store of the windows allocated so far; the same window is reached
    through every copy of its pointer. *)
Record Astroid := {
  activated : bool;
  m_config : option Config;
  logf_is_open : bool;
  plugin_manager : bool;          (* plugin_manager != NULL *)
  actions : bool;                 (* actions != NULL *)
  windows : list MainWindow;
  trace : list effect }.

(** Modelled from the spec: the members' initial values (astroid.hh is not
    among the sources): the activation flag starts cleared, no
    configuration, no subsystem object, no window. *)
Definition astroid0 : Astroid :=
  {| activated := false; m_config := None; logf_is_open := false;
     plugin_manager := false; actions := false; windows := [];
     trace := [] |}.

(** ** The monad: state, [exit (n)] and C++ exceptions *)

Inductive exn :=
| out_of_range            (* std::out_of_range, ustring::substr *)
| null_dereference        (* m_config used before it is set *)
| program_options_error   (* a boost::program_options error other than unknown_option *)
| Gio_Error.              (* Glib::Error from register_application *)

Inductive Res (A : Type) :=
| Val (a : A)
| Exit (code : Z)
| Throw (e : exn).
Arguments Val {A} a.
Arguments Exit {A} code.
Arguments Throw {A} e.

Definition M (A : Type) := Astroid -> Res A * Astroid.

Definition ret {A} (a : A) : M A := fun st => (Val a, st).

Definition bind {A B} (m : M A) (f : A -> M B) : M B :=
  fun st =>
    match m st with
    | (Val a, st') => f a st'
    | (Exit c, st') => (Exit c, st')
    | (Throw e, st') => (Throw e, st')
    end.

Definition exit {A} (code : Z) : M A := fun st => (Exit code, st).
Definition throw {A} (e : exn) : M A := fun st => (Throw e, st).

Declare Scope astroid_scope.
Delimit Scope astroid_scope with astroid.
Notation "x <- c ;; k" := (bind c (fun x => k))
  (at level 100, c at next level, right associativity) : astroid_scope.
Notation "c ;; k" := (bind c (fun _ => k))
  (at level 100, k at level 200, right associativity) : astroid_scope.
Open Scope astroid_scope.

Definition when (b : bool) (m : M unit) : M unit := if b then m else ret tt.

Fixpoint for_each {A} (l : list A) (body : A -> M unit) : M unit :=
  match l with
  | [] => ret tt
  | x :: r => body x ;; for_each r body
  end.

(** State access. *)
Definition emit (e : effect) : M unit := fun st =>
  (Val tt,
   {| activated := activated st; m_config := m_config st;
      logf_is_open := logf_is_open st; plugin_manager := plugin_manager st;
      actions := actions st; windows := windows st;
      trace := trace st ++ [e] |}).

Definition log (l : LogLevel) (s : string) : M unit := emit (log_line l s).

Definition set_windows (ws : list MainWindow) : M unit := fun st =>
  (Val tt,
   {| activated := activated st; m_config := m_config st;
      logf_is_open := logf_is_open st; plugin_manager := plugin_manager st;
      actions := actions st; windows := ws; trace := trace st |}).

Definition set_activated (b : bool) : M unit := fun st =>
  (Val tt,
   {| activated := b; m_config := m_config st;
      logf_is_open := logf_is_open st; plugin_manager := plugin_manager st;
      actions := actions st; windows := windows st; trace := trace st |}).

Definition set_m_config (c : Config) : M unit := fun st =>
  (Val tt,
   {| activated := activated st; m_config := Some c;
      logf_is_open := logf_is_open st; plugin_manager := plugin_manager st;
      actions := actions st; windows := windows st; trace := trace st |}).

Definition set_logf_is_open (b : bool) : M unit := fun st =>
  (Val tt,
   {| activated := activated st; m_config := m_config st;
      logf_is_open := b; plugin_manager := plugin_manager st;
      actions := actions st; windows := windows st; trace := trace st |}).

Definition set_plugin_manager (b : bool) : M unit := fun st =>
  (Val tt,
   {| activated := activated st; m_config := m_config st;
      logf_is_open := logf_is_open st; plugin_manager := b;
      actions := actions st; windows := windows st; trace := trace st |}).

Definition set_actions (b : bool) : M unit := fun st =>
  (Val tt,
   {| activated := activated st; m_config := m_config st;
      logf_is_open := logf_is_open st; plugin_manager := plugin_manager st;
      actions := b; windows := windows st; trace := trace st |}).

Definition get {A} (f : Astroid -> A) : M A := fun st => (Val (f st), st).

(** [m_config->...]: the pointer must have been set. *)
Definition config {A} (f : Config -> A) : M A :=
  c <- get m_config ;;
  match c with
  | Some c => ret (f c)
  | None => throw null_dereference
  end.

(** [ustring::substr (i, n)]: at most [n] characters from position [i];
    [std::out_of_range] when [i] is beyond the end. *)
Definition substr (s : ustring) (i n : nat) : M ustring :=
  if (i <=? String.length s)%nat then ret (substring i n s) else throw out_of_range.

(** [ustring::find (t)]: position of the first occurrence, [None] for
    [ustring::npos]. *)
Definition find (s t : ustring) : option nat := index 0 t s.

(** ** Windows *)

(** [new MainWindow ()]: a fresh window with no mode; the result is its
    pointer. *)
Definition new_MainWindow : M nat :=
  ws <- get windows ;;
  set_windows (ws ++ [{| modes := []; active := None; shown := false |}]) ;;
  ret (List.length ws).

Definition MainWindow_add_mode (m : Mode) (w : MainWindow) : MainWindow :=
  {| modes := modes w ++ [m]; active := active w; shown := shown w |}.

Definition MainWindow_set_active (n : nat) (w : MainWindow) : MainWindow :=
  {| modes := modes w; active := Some n; shown := shown w |}.

Definition MainWindow_show_all (w : MainWindow) : MainWindow :=
  {| modes := modes w; active := active w; shown := true |}.

(** [mw->add_mode (m)], [mw->set_active (n)], [mw->show_all ()]: the window
    behind the pointer is changed in place. *)
Definition add_mode (mw : nat) (m : Mode) : M unit :=
  ws <- get windows ;;
  set_windows (alter (MainWindow_add_mode m) mw ws) ;;
  emit (mw_add_mode mw m).

Definition set_active (mw : nat) (n : nat) : M unit :=
  ws <- get windows ;;
  set_windows (alter (MainWindow_set_active n) mw ws) ;;
  emit (mw_set_active mw n).

Definition mw_show_all (mw : nat) : M unit :=
  ws <- get windows ;;
  set_windows (alter MainWindow_show_all mw ws) ;;
  emit (show_all mw).

(** [Astroid::open_new_window] (astroid.cc, lines 360-394). *)
Definition open_new_window (open_defaults : bool) : M nat :=
  log warn "astroid: starting a new window.." ;;
  mw <- new_MainWindow ;;
  when open_defaults (
    show <- config show_on_startup ;;
    when show (
      add_mode mw {| kind := new_SavedSearches; invincible := true |}) ;;
    qpt <- config startup_queries ;;
    for_each qpt (fun kv =>
      let name := fst kv in
      let query := snd kv in
      log info ("astroid: got query: " ++ name ++ ": " ++ query) ;;
      add_mode mw {| kind := new_ThreadIndex query name; invincible := true |}) ;;
    set_active mw 0) ;;
  emit (app_add_window mw) ;;
  mw_show_all mw ;;
  ret mw.

(** [Astroid::send_mailto] (astroid.cc, lines 411-433). *)
Definition send_mailto (mw : nat) (url : ustring) : M unit :=
  log info ("astorid: mailto: " ++ url) ;;
  let scheme := Glib.uri_parse_scheme url in
  if (0 <? String.length scheme)%nat then
    url <- substr url (String.length scheme)
                  (String.length url - String.length scheme) ;;
    let pos := match find url "?" with
               | None => String.length url
               | Some pos => pos
               end in
    to <- substr url 0 pos ;;
    add_mode mw {| kind := new_EditMessage to; invincible := false |}
  else
    add_mode mw {| kind := new_EditMessage url; invincible := false |}.

(** [Astroid::on_signal_activate] (lines 396-403).  The call
    [open_new_window ()] leaves the parameter [open_defaults] to its default,
    which is [true]. *)
Definition on_signal_activate : M unit :=
  a <- get activated ;;
  if a then
    _ <- open_new_window true ;; ret tt
  else
    set_activated true.

(** [Astroid::on_mailto_activate] (lines 405-409); [url] is the string held
    by the action's parameter. *)
Definition on_mailto_activate (url : ustring) : M unit :=
  mw <- open_new_window false ;;
  send_mailto mw url.

(** ** The command line, the host and [main] *)

(** [po::variables_map] after [po::store]: which of the declared options
    occurred, and with what value ([vm.count (...)], [vm[...].as<ustring> ()]).
    The build is the default one, with plugins (DISABLE_PLUGINS not
    defined). *)
Record variables_map := {
  vm_help : bool;
  vm_config : option ustring;
  vm_new_config : bool;
  vm_test_config : bool;
  vm_mailto : option ustring;
  vm_no_auto_poll : bool;
  vm_log : option ustring;
  vm_append_log : bool;
  vm_disable_plugins : bool }.

(** The map before anything is stored in it. *)
Definition vm_empty : variables_map :=
  {| vm_help := false; vm_config := None; vm_new_config := false;
     vm_test_config := false; vm_mailto := None; vm_no_auto_poll := false;
     vm_log := None; vm_append_log := false; vm_disable_plugins := false |}.

(** What [po::parse_command_line (argc, argv, desc)] does with the command
    line: it returns the parsed options, or throws [po::unknown_option] for
    an option that is not declared in [desc], or throws another
    program_options error (for instance a missing argument). *)
Inductive ParseResult :=
| parsed (vm : variables_map)
| unknown_option (what : string)
| other_parse_error.

(** What the host session answers to [app->register_application ()]:
    this process owns the identity, another process owns it already
    ([app->is_remote ()]), or the registration fails, which glibmm reports
    by throwing [Glib::Error]. *)
Inductive Registration := Primary | Remote | RegistrationFailed.

(** Requests dispatched by the main loop during [app->run ()]: the
    [activate] signal and the [mailto] action with its string parameter. *)
Inductive Event :=
| activate
| mailto_action (url : ustring).

(** Everything outside the process that [main] consults. *)
Record World := {
  exists_ : ustring -> bool;                 (* boost::filesystem::exists, when the process starts *)
  equivalent : ustring -> ustring -> bool;   (* the two paths name the same file *)
  default_config_file : ustring;             (* Config ().std_paths.config_file *)
  logf_good : ustring -> bool;               (* logf.good () after logf.open *)
  registration : Registration;
  new_Config : ConfigSource -> Config;       (* the configuration that gets loaded *)
  events : list Event }.                     (* dispatched until the loop quits *)

(** Lines 94-101: [po::store (po::parse_command_line (...), vm)] inside
    [try]; only [po::unknown_option] is caught, and then nothing has been
    stored.  The first component is [show_help]. *)
Definition parse_command_line (pr : ParseResult) : M (bool * variables_map) :=
  match pr with
  | parsed vm => ret (false, vm)
  | unknown_option what =>
      emit (cout "unknown option") ;;
      emit (cout what) ;;
      ret (true, vm_empty)
  | other_parse_error => throw program_options_error
  end.

(** Lines 113-127: the log file.  After [logf.open] the file is open
    exactly when the stream is good. *)
Definition open_log_file (w : World) (vm : variables_map) : M unit :=
  match vm_log vm with
  | Some lfile =>
      emit (logf_opened lfile (vm_append_log vm)) ;;
      set_logf_is_open (logf_good w lfile) ;;
      if logf_good w lfile then
        emit log_add_logf ;;
        log info ("logging to: " ++ lfile)
      else
        o <- get logf_is_open ;;
        when o (emit logf_closed ;; set_logf_is_open false) ;;
        log error ("could not open: " ++ lfile ++ " for logging..")
  | None => ret tt
  end.

(** Whether a call the process has made creates, empties or writes the
    file [p]: [logf.open (f, ...)] does when it succeeds, and so does
    writing the configuration. *)
Definition touches_file (w : World) (p : ustring) (e : effect) : bool :=
  match e with
  | logf_opened f _ => logf_good w f && equivalent w f p
  | config_written f => equivalent w f p
  | _ => false
  end.

(** [exists (path (p))] at the current point of the run: the file was there
    when the process started, or the process has made it since. *)
Definition fs_exists (w : World) (p : ustring) : M bool :=
  tr <- get trace ;;
  ret (exists_ w p || existsb (touches_file w p) tr).

(** Lines 129-163: [--new-config]. *)
Definition make_new_config (w : World) (vm : variables_map)
    (test_config : bool) : M unit :=
  when (vm_new_config vm) (
    when test_config (
      log error "--new-config cannot be specified together with --test-config." ;;
      exit 1) ;;
    log info "creating new config.." ;;
    config_file <-
      match vm_config vm with
      | Some cnf =>
          e <- fs_exists w cnf ;;
          when e (
            log error ("the config file: " ++ cnf ++ " already exists.") ;;
            exit 1) ;;
          ret cnf
      | None =>
          e <- fs_exists w (default_config_file w) ;;
          when e (
            log error ("the config file: " ++ default_config_file w
                       ++ " already exists.") ;;
            exit 1) ;;
          ret (default_config_file w)
      end ;;
    log info ("writing default config to: " ++ config_file) ;;
    emit (config_written config_file) ;;
    exit 0).

(** Line 192: [app->register_application ()]. *)
Definition register_application (w : World) : M unit :=
  emit app_registered ;;
  match registration w with
  | RegistrationFailed => throw Gio_Error
  | _ => ret tt
  end.

(** [app->is_remote ()]. *)
Definition is_remote (w : World) : bool :=
  match registration w with
  | Remote => true
  | _ => false
  end.

(** Lines 228-243: load config. *)
Definition load_config (w : World) (vm : variables_map)
    (test_config : bool) : M unit :=
  match vm_config vm with
  | Some cnf =>
      when test_config (
        log error "--config cannot be specified together with --test-config." ;;
        exit 1) ;;
      emit (log_plain ("astroid: loading config: " ++ cnf)) ;;
      emit (config_loaded (config_file cnf)) ;;
      set_m_config (new_Config w (config_file cnf))
  | None =>
      if test_config then
        emit (config_loaded config_test) ;;
        set_m_config (new_Config w config_test)
      else
        emit (config_loaded config_default) ;;
        set_m_config (new_Config w config_default)
  end.

(** Lines 249-271: set up static classes, accounts, plugins, global actions
    and the poller. *)
Definition init_subsystems (disable_plugins no_auto_poll : bool) : M unit :=
  emit (init Date []) ;;
  emit (init Utils []) ;;
  emit (init Db []) ;;
  emit (init Keybindings []) ;;
  emit (init SavedSearches []) ;;
  emit (init AccountManager []) ;;
  in_test <- config test ;;
  emit (init PluginManager [disable_plugins; in_test]) ;;
  set_plugin_manager true ;;
  emit (init ActionManager []) ;;
  set_actions true ;;
  emit (init Poll [negb no_auto_poll]).

(** [app->run ()]: the handlers connected by [main] are called for each
    request, in arrival order, until the loop quits. *)
Fixpoint app_run (evs : list Event) : M unit :=
  match evs with
  | [] => ret tt
  | activate :: r => on_signal_activate ;; app_run r
  | mailto_action url :: r => on_mailto_activate url ;; app_run r
  end.

(** [Astroid::on_quit] (lines 329-346). *)
Definition on_quit : M unit :=
  log debug "astroid: quitting.." ;;
  a <- get actions ;;
  when a (emit (teardown ActionManager)) ;;
  emit (teardown SavedSearches) ;;
  p <- get plugin_manager ;;
  when p (emit (teardown PluginManager)) ;;
  o <- get logf_is_open ;;
  when o (
    emit log_del_logf ;;
    emit logf_closed ;;
    set_logf_is_open false) ;;
  log info "astroid: goodbye!".

(** [Astroid::main] (lines 70-284).  The result is the value [main]
    returns; [exit (n)] and an exception that nothing catches leave through
    [Exit n] and [Throw e]. *)
Definition main (w : World) (pr : ParseResult) : M Z :=
  p <- parse_command_line pr ;;
  let vm := snd p in
  let show_help := fst p || vm_help vm in
  let test_config := vm_test_config vm in
  when show_help (emit cout_desc ;; exit 0) ;;
  open_log_file w vm ;;
  make_new_config w vm test_config ;;
  let no_auto_poll := vm_no_auto_poll vm in
  when no_auto_poll (log info "astroid: automatic polling is off.") ;;
  let disable_plugins := vm_disable_plugins vm in
  let (domailto, mailtourl) :=
    match vm_mailto vm with
    | Some url => (true, url)
    | None => (false, EmptyString)
    end in
  when domailto (log debug ("astroid: composing mail to: " ++ mailtourl)) ;;
  log debug "loading gtk.." ;;
  emit (app_created "org.astroid") ;;
  register_application w ;;
  if is_remote w then
    log warn "astroid: instance already running, opening new window.." ;;
    when no_auto_poll (
      log warn "astroid: specifying no-auto-poll only makes sense when starting a new astroid instance, ignoring.") ;;
    (if domailto then emit (app_activate_action "mailto" mailtourl)
     else emit app_activate) ;;
    ret 0%Z
  else
    emit connect_activate ;;
    emit (add_action "mailto") ;;
    load_config w vm test_config ;;
    db_path <- config database_path ;;
    log info ("notmuch db: " ++ db_path) ;;
    init_subsystems disable_plugins no_auto_poll ;;
    (if domailto then
       mw <- open_new_window false ;;
       send_mailto mw mailtourl
     else
       _ <- open_new_window true ;; ret tt) ;;
    app_run (events w) ;;
    on_quit ;;
    ret 0%Z.

(** Running [main] in a fresh process. *)
Definition run (w : World) (pr : ParseResult) : Res Z * Astroid :=
  main w pr astroid0.

(** Projections of a trace. *)
Definition inits (tr : list effect) : list Subsystem :=
  omap (fun e => match e with init s _ => Some s | _ => None end) tr.

Definition teardowns (tr : list effect) : list Subsystem :=
  omap (fun e => match e with teardown s => Some s | _ => None end) tr.

(** The exit status of the process: the value [main] returns or the
    argument of [exit]; none when an exception escapes. *)
Definition exit_status (r : Res Z) : option Z :=
  match r with
  | Val n => Some n
  | Exit n => Some n
  | Throw _ => None
  end.

(** The recipient computed by [send_mailto] (lines 414-425 and 431): the
    text it passes to [new EditMessage], as a function of [url] alone.
    That [send_mailto] addresses its compose mode to this text, and that
    its two [substr] calls never throw, is proved below. *)
Definition decode (url : ustring) : ustring :=
  let scheme := Glib.uri_parse_scheme url in
  if (0 <? String.length scheme)%nat then
    let url := substring (String.length scheme)
                 (String.length url - String.length scheme) url in
    let pos := match find url "?" with
               | None => String.length url
               | Some pos => pos
               end in
    substring 0 pos url
  else url.

(** The window [open_new_window (true)] builds from a configuration. *)
Definition startup_modes (c : Config) : list Mode :=
  (if show_on_startup c
   then [{| kind := new_SavedSearches; invincible := true |}] else [])
  ++ map (fun kv => {| kind := new_ThreadIndex (snd kv) (fst kv);
                       invincible := true |}) (startup_queries c).

Definition default_window (c : Config) : MainWindow :=
  {| modes := startup_modes c; active := Some 0; shown := true |}.

(** The window [open_new_window (false)] and [send_mailto] build. *)
Definition compose_window (to : ustring) : MainWindow :=
  {| modes := [{| kind := new_EditMessage to; invincible := false |}];
     active := None; shown := true |}.

(** The trace without what is only printed or logged. *)
Definition is_logging (e : effect) : bool :=
  match e with
  | cout _ | cout_desc | log_line _ _ | log_plain _ | logf_opened _ _
  | log_add_logf | log_del_logf | logf_closed => true
  | _ => false
  end.

Definition core (tr : list effect) : list effect :=
  List.filter (fun e => negb (is_logging e)) tr.

(** Which configuration [main] loads (lines 229-243). *)
Definition config_source (vm : variables_map) : ConfigSource :=
  match vm_config vm with
  | Some cnf => config_file cnf
  | None => if vm_test_config vm then config_test else config_default
  end.

(** The order of the set-up calls in [main], lines 250-271. *)
Definition init_order : list Subsystem :=
  [Date; Utils; Db; Keybindings; SavedSearches; AccountManager;
   PluginManager; ActionManager; Poll].

(** States that differ from [st] in a few members only. *)
Definition with_wt (st : Astroid) (ws : list MainWindow) (tr : list effect)
  : Astroid :=
  {| activated := activated st; m_config := m_config st;
     logf_is_open := logf_is_open st; plugin_manager := plugin_manager st;
     actions := actions st; windows := ws; trace := tr |}.

Definition with_awt (st : Astroid) (a : bool) (ws : list MainWindow)
    (tr : list effect) : Astroid :=
  {| activated := a; m_config := m_config st;
     logf_is_open := logf_is_open st; plugin_manager := plugin_manager st;
     actions := actions st; windows := ws; trace := tr |}.

(** The windows the handlers open while the loop serves [evs], when the
    activation flag is [a] at the start and the configuration is [c]. *)
Fixpoint loop_windows (c : Config) (a : bool) (evs : list Event)
  : list MainWindow :=
  match evs with
  | [] => []
  | activate :: r =>
      if a then default_window c :: loop_windows c true r
      else loop_windows c true r
  | mailto_action url :: r => compose_window (decode url) :: loop_windows c a r
  end.

(** The activation flag after the loop has served [evs]. *)
Fixpoint loop_flag (a : bool) (evs : list Event) : bool :=
  match evs with
  | [] => a
  | activate :: r => loop_flag true r
  | mailto_action _ :: r => loop_flag a r
  end.

Definition with_lt (st : Astroid) (o : bool) (tr : list effect) : Astroid :=
  {| activated := activated st; m_config := m_config st;
     logf_is_open := o; plugin_manager := plugin_manager st;
     actions := actions st; windows := windows st; trace := tr |}.

(** The thread-index mode made for one entry of [startup.queries]. *)
Definition query_mode (kv : ustring * ustring) : Mode :=
  {| kind := new_ThreadIndex (snd kv) (fst kv); invincible := true |}.

(** What the loop over [startup.queries] (lines 377-385) does for one
    entry, and what it records. *)
Definition query_step (mw : nat) (kv : ustring * ustring) (st : Astroid)
  : Astroid :=
  with_wt st
    (alter (MainWindow_add_mode (query_mode kv)) mw (windows st))
    (trace st ++
       [log_line info ("astroid: got query: " ++ fst kv ++ ": " ++ snd kv);
        mw_add_mode mw (query_mode kv)]).

Definition query_effects (mw : nat) (kv : ustring * ustring) : list effect :=
  [log_line info ("astroid: got query: " ++ fst kv ++ ": " ++ snd kv);
   mw_add_mode mw (query_mode kv)].

(** [--new-config]: the file that would be written. *)
Definition new_config_target (w : World) (vm : variables_map) : ustring :=
  match vm_config vm with
  | Some cnf => cnf
  | None => default_config_file w
  end.

(** Whether the log file of this run, opened at lines 113-127, is the file
    [p]. *)
Definition log_touches (w : World) (vm : variables_map) (p : ustring) : bool :=
  match vm_log vm with
  | Some lfile => logf_good w lfile && equivalent w lfile p
  | None => false
  end.

(** What [exists (path (p))] answers in lines 129-163: the file was there
    when the process started, or it is the log file just opened. *)
Definition file_exists (w : World) (vm : variables_map) (p : ustring) : bool :=
  exists_ w p || log_touches w vm p.

(** What a process that is not the first instance sends to the first one
    (lines 201-210). *)
Definition forwarded (vm : variables_map) : effect :=
  match vm_mailto vm with
  | Some url => app_activate_action "mailto" url
  | None => app_activate
  end.

(** The text in front of the first ['?'], or all of it. *)
Definition up_to_query (s : ustring) : ustring :=
  match find s "?" with
  | Some pos => substring 0 pos s
  | None => s
  end.

(** The recipient as the specification describes it, to be compared with
    [decode]: "if raw has a URI scheme prefix (e.g. mailto:), strip the
    scheme; everything up to the first ? (or end of string, if no ?) is
    the recipient address"; "if raw has no scheme, treat the entire string
    as a literal recipient address"; "for all raw = mailto: + addr,
    decode(raw) returns addr".  The scheme prefix is the scheme with its
    colon. *)
Definition spec_decode (raw : ustring) : ustring :=
  match Glib.g_uri_parse_scheme raw with
  | Some scheme =>
      up_to_query
        (substring (S (String.length scheme)) (String.length raw) raw)
  | None => raw
  end.

(** Whether the command line makes [main] show the help text. *)
Definition asks_for_help (pr : ParseResult) : bool :=
  match pr with
  | parsed vm => vm_help vm
  | unknown_option _ => true
  | other_parse_error => false
  end.

(** ** Example inputs *)

Definition example_config : Config :=
  {| test := false; show_on_startup := true;
     startup_queries := [("inbox", "tag:inbox"); ("unread", "tag:unread")];
     database_path := "/home/user/mail" |}.

(** A host in which a configuration file exists at every path iff
    [present], two paths name the same file iff they are the same text, the
    log file can be opened, registration answers [reg], and the main loop
    dispatches [evs]. *)
Definition example_world (present : bool) (reg : Registration)
    (evs : list Event) : World :=
  {| exists_ := fun _ => present;
     equivalent := String.eqb;
     default_config_file := "/home/user/.config/astroid/config";
     logf_good := fun _ => true;
     registration := reg;
     new_Config := fun _ => example_config;
     events := evs |}.

(** [astroid --mailto foo@bar.com] *)
Definition vm_mailto_foo : variables_map :=
  {| vm_help := false; vm_config := None; vm_new_config := false;
     vm_test_config := false; vm_mailto := Some "foo@bar.com";
     vm_no_auto_poll := false; vm_log := None; vm_append_log := false;
     vm_disable_plugins := false |}.

(** [astroid --config X --test-config] *)
Definition vm_config_test : variables_map :=
  {| vm_help := false; vm_config := Some "X"; vm_new_config := false;
     vm_test_config := true; vm_mailto := None;
     vm_no_auto_poll := false; vm_log := None; vm_append_log := false;
     vm_disable_plugins := false |}.

(** [astroid --new-config] *)
Definition vm_new : variables_map :=
  {| vm_help := false; vm_config := None; vm_new_config := true;
     vm_test_config := false; vm_mailto := None;
     vm_no_auto_poll := false; vm_log := None; vm_append_log := false;
     vm_disable_plugins := false |}.

(** [astroid --new-config --config F --log F] *)
Definition vm_new_log_target : variables_map :=
  {| vm_help := false; vm_config := Some "F"; vm_new_config := true;
     vm_test_config := false; vm_mailto := None;
     vm_no_auto_poll := false; vm_log := Some "F"; vm_append_log := false;
     vm_disable_plugins := false |}.

(** [astroid --mailto mailto:foo@bar.com] *)
Definition vm_mailto_url : variables_map :=
  {| vm_help := false; vm_config := None; vm_new_config := false;
     vm_test_config := false; vm_mailto := Some "mailto:foo@bar.com";
     vm_no_auto_poll := false; vm_log := None; vm_append_log := false;
     vm_disable_plugins := false |}.

(** [astroid --new-config --help] *)
Definition vm_new_help : variables_map :=
  {| vm_help := true; vm_config := None; vm_new_config := true;
     vm_test_config := false; vm_mailto := None;
     vm_no_auto_poll := false; vm_log := None; vm_append_log := false;
     vm_disable_plugins := false |}.

(** ** The test entry point *)

(** [Astroid::in_test] (lines 325-327). *)
Definition in_test : M bool := config test.

(** [Astroid::main_test] (lines 298-323): the set-up of [main] without the
    command line, the application object and the keybindings; the plugin
    manager is made with [(false, true)] and the poller with [(false)]. *)
Definition main_test (w : World) : M unit :=
  emit (config_loaded config_test) ;;
  set_m_config (new_Config w config_test) ;;
  emit (init Date []) ;;
  emit (init Utils []) ;;
  emit (init Db []) ;;
  emit (init SavedSearches []) ;;
  emit (init AccountManager []) ;;
  emit (init PluginManager [false; true]) ;;
  set_plugin_manager true ;;
  emit (init ActionManager []) ;;
  set_actions true ;;
  emit (init Poll [false]).

(** ** Closed forms of what the functions record *)

(** What lines 113-127 record. *)
Definition log_file_effects (w : World) (vm : variables_map) : list effect :=
  match vm_log vm with
  | Some lfile =>
      logf_opened lfile (vm_append_log vm) ::
      (if logf_good w lfile
       then [log_add_logf; log_line info ("logging to: " ++ lfile)]
       else [log_line error ("could not open: " ++ lfile ++ " for logging..")])
  | None => []
  end.

(** Whether the log file is open after lines 113-127 in a fresh process. *)
Definition log_file_open (w : World) (vm : variables_map) : bool :=
  match vm_log vm with
  | Some lfile => logf_good w lfile
  | None => false
  end.

(** What [on_quit] records, by the three members it tests. *)
Definition quit_effects (a p o : bool) : list effect :=
  [log_line debug "astroid: quitting.."] ++
  (if a then [teardown ActionManager] else []) ++
  [teardown SavedSearches] ++
  (if p then [teardown PluginManager] else []) ++
  (if o then [log_del_logf; logf_closed] else []) ++
  [log_line info "astroid: goodbye!"].

(** What [open_new_window (true)] records for the window [mw]. *)
Definition default_window_trace (c : Config) (mw : nat) : list effect :=
  [log_line warn "astroid: starting a new window.."] ++
  (if show_on_startup c
   then [mw_add_mode mw {| kind := new_SavedSearches; invincible := true |}]
   else []) ++
  flat_map (query_effects mw) (startup_queries c) ++
  [mw_set_active mw 0; app_add_window mw; show_all mw].

(** What [open_new_window (false)] followed by [send_mailto] records. *)
Definition compose_trace (url : ustring) (mw : nat) : list effect :=
  [log_line warn "astroid: starting a new window..";
   app_add_window mw; show_all mw;
   log_line info ("astorid: mailto: " ++ url);
   mw_add_mode mw {| kind := new_EditMessage (decode url);
                     invincible := false |}].

(** What the handlers record while the loop serves [evs]; [a] is the
    activation flag and [mw] the number of windows at the start. *)
Fixpoint loop_trace (c : Config) (a : bool) (mw : nat) (evs : list Event)
  : list effect :=
  match evs with
  | [] => []
  | activate :: r =>
      if a then default_window_trace c mw ++ loop_trace c true (S mw) r
      else loop_trace c true mw r
  | mailto_action url :: r => compose_trace url mw ++ loop_trace c a (S mw) r
  end.

(** The window a request gives once the first activation is past. *)
Definition window_of (c : Config) (ev : Event) : MainWindow :=
  match ev with
  | activate => default_window c
  | mailto_action url => compose_window (decode url)
  end.

(** The requests without the first [activate]. *)
Fixpoint drop_first_activate (evs : list Event) : list Event :=
  match evs with
  | [] => []
  | activate :: r => r
  | ev :: r => ev :: drop_first_activate r
  end.

Definition is_activate (ev : Event) : bool :=
  match ev with
  | activate => true
  | mailto_action _ => false
  end.

(** The calls that open, close, attach or detach the log file. *)
Definition is_logf (e : effect) : bool :=
  match e with
  | logf_opened _ _ | log_add_logf | log_del_logf | logf_closed => true
  | _ => false
  end.

Definition logf_events (tr : list effect) : list effect :=
  List.filter is_logf tr.

(** The calls on windows. *)
Definition is_window_call (e : effect) : bool :=
  match e with
  | mw_add_mode _ _ | mw_set_active _ _ | app_add_window _ | show_all _ => true
  | _ => false
  end.

(** Everything [main] records on the primary path (lines 113-283). *)
Definition primary_trace (w : World) (vm : variables_map) : list effect :=
  let c := new_Config w (config_source vm) in
  log_file_effects w vm ++
  (if vm_no_auto_poll vm
   then [log_line info "astroid: automatic polling is off."] else []) ++
  match vm_mailto vm with
  | Some url => [log_line debug ("astroid: composing mail to: " ++ url)]
  | None => []
  end ++
  [log_line debug "loading gtk.."; app_created "org.astroid";
   app_registered; connect_activate; add_action "mailto"] ++
  match vm_config vm with
  | Some cnf => [log_plain ("astroid: loading config: " ++ cnf)]
  | None => []
  end ++
  [config_loaded (config_source vm);
   log_line info ("notmuch db: " ++ database_path c);
   init Date []; init Utils []; init Db []; init Keybindings [];
   init SavedSearches []; init AccountManager [];
   init PluginManager [vm_disable_plugins vm; test c];
   init ActionManager []; init Poll [negb (vm_no_auto_poll vm)]] ++
  match vm_mailto vm with
  | Some url => compose_trace url 0
  | None => default_window_trace c 0
  end ++
  loop_trace c false 1 (events w) ++
  quit_effects true true (log_file_open w vm).

(** Everything [main] records on the secondary path (lines 113-212). *)
Definition secondary_trace (w : World) (vm : variables_map) : list effect :=
  log_file_effects w vm ++
  (if vm_no_auto_poll vm
   then [log_line info "astroid: automatic polling is off."] else []) ++
  match vm_mailto vm with
  | Some url => [log_line debug ("astroid: composing mail to: " ++ url)]
  | None => []
  end ++
  [log_line debug "loading gtk.."; app_created "org.astroid"; app_registered;
   log_line warn "astroid: instance already running, opening new window.."] ++
  (if vm_no_auto_poll vm
   then [log_line warn "astroid: specifying no-auto-poll only makes sense when starting a new astroid instance, ignoring."]
   else []) ++
  [forwarded vm].

(** The command line without [--log] and [--append-log]. *)
Definition without_log (vm : variables_map) : variables_map :=
  {| vm_help := vm_help vm; vm_config := vm_config vm;
     vm_new_config := vm_new_config vm; vm_test_config := vm_test_config vm;
     vm_mailto := vm_mailto vm; vm_no_auto_poll := vm_no_auto_poll vm;
     vm_log := None; vm_append_log := false;
     vm_disable_plugins := vm_disable_plugins vm |}.

(** ** More example inputs *)

(** [astroid --log /tmp/astroid.log --append-log] *)
Definition vm_log_append : variables_map :=
  {| vm_help := false; vm_config := None; vm_new_config := false;
     vm_test_config := false; vm_mailto := None;
     vm_no_auto_poll := false; vm_log := Some "/tmp/astroid.log";
     vm_append_log := true; vm_disable_plugins := false |}.

(** [astroid --no-auto-poll --config X --test-config] *)
Definition vm_no_auto_poll_conflict : variables_map :=
  {| vm_help := false; vm_config := Some "X"; vm_new_config := false;
     vm_test_config := true; vm_mailto := None;
     vm_no_auto_poll := true; vm_log := None; vm_append_log := false;
     vm_disable_plugins := false |}.

(** [astroid --no-auto-poll --disable-plugins --test-config] *)
Definition vm_quiet_test : variables_map :=
  {| vm_help := false; vm_config := None; vm_new_config := false;
     vm_test_config := true; vm_mailto := None;
     vm_no_auto_poll := true; vm_log := None; vm_append_log := false;
     vm_disable_plugins := true |}.

(** [astroid --test-config] *)
Definition vm_test : variables_map :=
  {| vm_help := false; vm_config := None; vm_new_config := false;
     vm_test_config := true; vm_mailto := None;
     vm_no_auto_poll := false; vm_log := None; vm_append_log := false;
     vm_disable_plugins := false |}.

#[global] Instance Subsystem_eq_dec : EqDecision Subsystem.
Proof. solve_decision. Defined.

(** * Properties *)

#[local] Arguments append : simpl never.

Ltac trace_norm := repeat rewrite <- app_assoc; simpl.

(** Unfold the monad's operations and the state accessors. *)
Ltac monad_unfold :=
  unfold bind, ret, exit, throw, when, get, log, emit, set_windows,
    set_activated, set_m_config, set_logf_is_open, set_plugin_manager,
    set_actions.

(** ** The monad *)

Lemma bind_Val {A B} (m : M A) (f : A -> M B) st a st' :
  m st = (Val a, st') -> bind m f st = f a st'.
Proof. intros H. unfold bind. now rewrite H. Qed.

Lemma bind_assoc {A B C} (m : M A) (f : A -> M B) (g : B -> M C) st :
  bind (bind m f) g st = bind m (fun x => bind (f x) g) st.
Proof. unfold bind. destruct (m st) as [[a|c|e] st']; reflexivity. Qed.

(** ** Strings and schemes *)

Lemma substring_0_length (s : string) : substring 0 (String.length s) s = s.
Proof. induction s as [|c s IH]; simpl; [reflexivity | now rewrite IH]. Qed.

Lemma length_substring_0_le (n : nat) (s : string) :
  String.length (substring 0 n s) <= String.length s.
Proof.
  revert n. induction s as [|c s IH]; intros [|n]; simpl; try lia.
  specialize (IH n). lia.
Qed.

Lemma uri_parse_scheme_length (url : ustring) :
  String.length (Glib.uri_parse_scheme url) <= String.length url.
Proof.
  unfold Glib.uri_parse_scheme, Glib.g_uri_parse_scheme.
  destruct url as [|c r]; [simpl; lia|].
  destruct (Glib.g_ascii_isalpha c); [|simpl; lia].
  destruct (Glib.scheme_scan (String c r)) as [n|]; [|simpl; lia].
  apply length_substring_0_le.
Qed.

(** ** Windows *)

Lemma alter_last {A} (f : A -> A) (l : list A) (x : A) :
  alter f (List.length l) (l ++ [x]) = l ++ [f x].
Proof.
  rewrite (alter_app_r_alt f l [x] (List.length l)) by lia.
  now rewrite Nat.sub_diag.
Qed.

(** [send_mailto] never throws: it adds one compose mode, addressed to
    [decode url], to the window behind [mw]. *)
Lemma send_mailto_decode (mw : nat) (url : ustring) (st : Astroid) :
  send_mailto mw url st =
  (Val tt,
   with_wt st
     (alter (MainWindow_add_mode
               {| kind := new_EditMessage (decode url); invincible := false |})
            mw (windows st))
     (trace st ++
        [log_line info ("astorid: mailto: " ++ url);
         mw_add_mode mw {| kind := new_EditMessage (decode url);
                           invincible := false |}])).
Proof.
  unfold send_mailto, decode.
  pose proof (uri_parse_scheme_length url) as Hle.
  destruct (0 <? String.length (Glib.uri_parse_scheme url))%nat eqn:Hs.
  - unfold bind at 1. cbn [log emit].
    unfold bind at 1, substr at 1.
    apply Nat.leb_le in Hle. rewrite Hle. cbn [ret].
    unfold substr, add_mode, with_wt. monad_unfold. cbn.
    f_equal. f_equal. now trace_norm.
  - unfold add_mode, with_wt. monad_unfold. cbn.
    f_equal. f_equal. now trace_norm.
Qed.

(** [open_new_window (false)]: a fresh, shown window with no mode. *)
Lemma open_new_window_false (st : Astroid) :
  open_new_window false st =
  (Val (List.length (windows st)),
   with_wt st
     (windows st ++ [{| modes := []; active := None; shown := true |}])
     (trace st ++
        [log_line warn "astroid: starting a new window..";
         app_add_window (List.length (windows st));
         show_all (List.length (windows st))])).
Proof.
  unfold open_new_window, new_MainWindow, mw_show_all, with_wt.
  monad_unfold. cbn.
  rewrite alter_last. f_equal. f_equal. now trace_norm.
Qed.

(** The request handler of the [mailto] action: one new window, holding
    one compose mode addressed to [decode url]; the configuration is not
    consulted. *)
Lemma on_mailto_activate_window (url : ustring) (st : Astroid) :
  on_mailto_activate url st =
  (Val tt,
   with_wt st
     (windows st ++ [compose_window (decode url)])
     (trace st ++
        [log_line warn "astroid: starting a new window..";
         app_add_window (List.length (windows st));
         show_all (List.length (windows st));
         log_line info ("astorid: mailto: " ++ url);
         mw_add_mode (List.length (windows st))
           {| kind := new_EditMessage (decode url); invincible := false |}])).
Proof.
  unfold on_mailto_activate.
  rewrite (bind_Val _ _ _ _ _ (open_new_window_false st)).
  rewrite send_mailto_decode. unfold with_wt. cbn.
  rewrite alter_last. f_equal. f_equal. now trace_norm.
Qed.

(** A loop whose body always completes is a fold over the state. *)
Lemma for_each_fold {A} (l : list A) (body : A -> M unit)
    (g : A -> Astroid -> Astroid) (st : Astroid) :
  (forall x s, body x s = (Val tt, g x s)) ->
  for_each l body st = (Val tt, fold_left (fun s x => g x s) l st).
Proof.
  intros Hbody. revert st.
  induction l as [|x l IH]; intros st; simpl; [reflexivity|].
  unfold bind. now rewrite Hbody, IH.
Qed.

Lemma fold_query_step (qpt : list (ustring * ustring))
    (ws : list MainWindow) (w0 : MainWindow) (st : Astroid) :
  windows st = ws ++ [w0] ->
  fold_left (fun s kv => query_step (List.length ws) kv s) qpt st =
  with_wt st
    (ws ++ [{| modes := modes w0 ++ map query_mode qpt;
               active := active w0; shown := shown w0 |}])
    (trace st ++ flat_map (query_effects (List.length ws)) qpt).
Proof.
  revert w0 st. induction qpt as [|kv qpt IH]; intros w0 st Hw; simpl.
  - rewrite !app_nil_r. destruct st, w0; simpl in *. now subst.
  - rewrite (IH (MainWindow_add_mode (query_mode kv) w0)).
    + unfold query_step, with_wt. simpl. f_equal.
      * now rewrite <- app_assoc.
      * now rewrite <- app_assoc.
    + unfold query_step. simpl. rewrite Hw. apply alter_last.
Qed.

(** [open_new_window (true)] once the configuration is loaded: a fresh
    window is populated with the start-up modes, its first mode is made the
    active one, and it is handed to the application and shown. *)
Lemma open_new_window_true (c : Config) (st : Astroid) :
  m_config st = Some c ->
  open_new_window true st =
  (Val (List.length (windows st)),
   with_wt st
     (windows st ++ [default_window c])
     (trace st ++
        [log_line warn "astroid: starting a new window.."] ++
        (if show_on_startup c
         then [mw_add_mode (List.length (windows st))
                 {| kind := new_SavedSearches; invincible := true |}]
         else []) ++
        flat_map (query_effects (List.length (windows st)))
          (startup_queries c) ++
        [mw_set_active (List.length (windows st)) 0;
         app_add_window (List.length (windows st));
         show_all (List.length (windows st))])).
Proof.
  intros Hc.
  unfold open_new_window, new_MainWindow, mw_show_all, set_active, add_mode,
    config.
  monad_unfold. cbn. rewrite Hc.
  set (h := List.length (windows st)).
  destruct (show_on_startup c) eqn:Hshow; cbn; rewrite ?Hc.
  - rewrite (for_each_fold _ _ (query_step h)).
    2:{ intros kv s. unfold query_step, with_wt. f_equal. f_equal.
        now rewrite <- app_assoc. }
    unfold h. rewrite alter_last.
    erewrite fold_query_step by reflexivity.
    unfold with_wt. cbn. rewrite alter_last. cbn. rewrite alter_last. cbn.
    unfold default_window, startup_modes. rewrite Hshow.
    f_equal; f_equal; trace_norm; congruence.
  - rewrite (for_each_fold _ _ (query_step h)).
    2:{ intros kv s. unfold query_step, with_wt. f_equal. f_equal.
        now rewrite <- app_assoc. }
    unfold h.
    erewrite fold_query_step by reflexivity.
    unfold with_wt. cbn. rewrite alter_last. cbn. rewrite alter_last. cbn.
    unfold default_window, startup_modes. rewrite Hshow.
    f_equal; f_equal; trace_norm; congruence.
Qed.

(** ** The activation handler and the main loop *)

Lemma inits_app (t1 t2 : list effect) : inits (t1 ++ t2) = inits t1 ++ inits t2.
Proof. apply omap_app. Qed.

Lemma teardowns_app (t1 t2 : list effect) :
  teardowns (t1 ++ t2) = teardowns t1 ++ teardowns t2.
Proof. apply omap_app. Qed.

Lemma inits_query_effects (mw : nat) (qpt : list (ustring * ustring)) :
  inits (flat_map (query_effects mw) qpt) = [].
Proof. induction qpt as [|kv qpt IH]; simpl; [reflexivity | exact IH]. Qed.

Lemma teardowns_query_effects (mw : nat) (qpt : list (ustring * ustring)) :
  teardowns (flat_map (query_effects mw) qpt) = [].
Proof. induction qpt as [|kv qpt IH]; simpl; [reflexivity | exact IH]. Qed.

(** The first [activate] request is swallowed: it only sets the flag. *)
Lemma on_signal_activate_first (st : Astroid) :
  activated st = false ->
  on_signal_activate st = (Val tt, with_awt st true (windows st) (trace st)).
Proof.
  intros Ha. unfold on_signal_activate. monad_unfold. now rewrite Ha.
Qed.

(** Every later [activate] request opens a default window. *)
Lemma on_signal_activate_later (c : Config) (st : Astroid) :
  activated st = true -> m_config st = Some c ->
  exists tr,
    on_signal_activate st =
      (Val tt,
       with_awt st true (windows st ++ [default_window c]) (trace st ++ tr))
    /\ inits tr = [] /\ teardowns tr = [].
Proof.
  intros Ha Hc. unfold on_signal_activate.
  unfold bind at 1. unfold get at 1. rewrite Ha.
  rewrite (bind_Val _ _ _ _ _ (open_new_window_true c st Hc)).
  eexists. split.
  - unfold ret, with_wt, with_awt. now rewrite Ha.
  - rewrite !inits_app, !teardowns_app, inits_query_effects,
      teardowns_query_effects.
    now destruct (show_on_startup c).
Qed.

(** The loop never fails once the configuration is loaded; it only adds
    windows, and neither sets up nor tears down a subsystem. *)
Lemma app_run_windows (c : Config) (evs : list Event) (st : Astroid) :
  m_config st = Some c ->
  exists tr,
    app_run evs st =
      (Val tt,
       with_awt st (loop_flag (activated st) evs)
         (windows st ++ loop_windows c (activated st) evs)
         (trace st ++ tr))
    /\ inits tr = [] /\ teardowns tr = [].
Proof.
  revert st. induction evs as [|ev evs IH]; intros st Hc.
  - exists []. split; [|now split].
    rewrite !app_nil_r. now destruct st.
  - destruct ev as [|url]; cbn [app_run loop_windows loop_flag].
    + destruct (activated st) eqn:Ha.
      * destruct (on_signal_activate_later c st Ha Hc) as (tr1 & E1 & I1 & T1).
        rewrite (bind_Val _ _ _ _ _ E1).
        destruct (IH (with_awt st true (windows st ++ [default_window c])
                        (trace st ++ tr1)) Hc) as (tr2 & E2 & I2 & T2).
        exists (tr1 ++ tr2). rewrite E2. cbn. split.
        -- unfold with_awt. cbn.
           f_equal. f_equal; now rewrite <- app_assoc.
        -- now rewrite inits_app, teardowns_app, I1, I2, T1, T2.
      * rewrite (bind_Val _ _ _ _ _ (on_signal_activate_first st Ha)).
        destruct (IH (with_awt st true (windows st) (trace st)) Hc)
          as (tr2 & E2 & I2 & T2).
        exists tr2. rewrite E2. cbn. split; [|now split].
        reflexivity.
    + rewrite (bind_Val _ _ _ _ _ (on_mailto_activate_window url st)).
      destruct (IH (with_wt st (windows st ++ [compose_window (decode url)])
                      (trace st ++
                       [log_line warn "astroid: starting a new window..";
                        app_add_window (List.length (windows st));
                        show_all (List.length (windows st));
                        log_line info ("astorid: mailto: " ++ url);
                        mw_add_mode (List.length (windows st))
                          {| kind := new_EditMessage (decode url);
                             invincible := false |}])) Hc)
        as (tr2 & E2 & I2 & T2).
      eexists (_ ++ tr2). rewrite E2. cbn. split.
      * unfold with_awt, with_wt. cbn. f_equal. f_equal.
        -- now rewrite <- app_assoc.
        -- now rewrite <- app_assoc.
      * now rewrite inits_app, teardowns_app, I2, T2.
Qed.

(** ** Running [main] *)

Lemma bind_Exit {A B} (m : M A) (f : A -> M B) st c st' :
  m st = (Exit c, st') -> bind m f st = (Exit c, st').
Proof. intros H. unfold bind. now rewrite H. Qed.

Lemma bind_Throw {A B} (m : M A) (f : A -> M B) st e st' :
  m st = (Throw e, st') -> bind m f st = (Throw e, st').
Proof. intros H. unfold bind. now rewrite H. Qed.

Lemma when_true (m : M unit) : when true m = m.
Proof. reflexivity. Qed.

Lemma when_false (m : M unit) : when false m = ret tt.
Proof. reflexivity. Qed.

Ltac st_simpl :=
  cbv beta zeta;
  cbn [activated m_config logf_is_open plugin_manager actions windows trace
       fst snd orb].

(** One statement of the program: run the first command of a sequence on
    the current state. *)
Ltac mstep :=
  rewrite ?when_true, ?when_false, ?bind_assoc;
  lazymatch goal with
  | |- context [bind ?m _ _] =>
      lazymatch m with
      | context [open_new_window] => fail
      | context [send_mailto] => fail
      | context [app_run] => fail
      | context [on_quit] => fail
      | _ => idtac
      end
  end;
  first [ erewrite bind_Val by reflexivity
        | erewrite bind_Exit by reflexivity
        | erewrite bind_Throw by reflexivity ];
  st_simpl.

Lemma core_app (t1 t2 : list effect) : core (t1 ++ t2) = core t1 ++ core t2.
Proof. apply List.filter_app. Qed.

Lemma inits_core (tr : list effect) : inits (core tr) = inits tr.
Proof.
  unfold inits, core. induction tr as [|e tr IH]; [reflexivity|].
  destruct e; cbn; rewrite ?IH; reflexivity.
Qed.

Lemma teardowns_core (tr : list effect) : teardowns (core tr) = teardowns tr.
Proof.
  unfold teardowns, core. induction tr as [|e tr IH]; [reflexivity|].
  destruct e; cbn; rewrite ?IH; reflexivity.
Qed.

Lemma core_nil_inits (tr : list effect) : core tr = [] -> inits tr = [].
Proof. intros H. now rewrite <- inits_core, H. Qed.

Lemma core_nil_teardowns (tr : list effect) : core tr = [] -> teardowns tr = [].
Proof. intros H. now rewrite <- teardowns_core, H. Qed.

(** Lines 113-127 only log, and open or fail to open the log file. *)
Lemma open_log_file_spec (w : World) (vm : variables_map) (st : Astroid) :
  exists o tr,
    open_log_file w vm st = (Val tt, with_lt st o (trace st ++ tr))
    /\ core tr = [].
Proof.
  unfold open_log_file. destruct (vm_log vm) as [lfile|].
  - destruct (logf_good w lfile) eqn:Hg.
    + exists true. eexists. split.
      * monad_unfold. cbn. unfold with_lt. f_equal. f_equal.
        rewrite <- !app_assoc. reflexivity.
      * reflexivity.
    + exists false. eexists. split.
      * monad_unfold. cbn. unfold with_lt. f_equal. f_equal.
        rewrite <- !app_assoc. reflexivity.
      * reflexivity.
  - exists (logf_is_open st), []. split; [|reflexivity].
    rewrite app_nil_r. now destruct st.
Qed.

(** [on_quit] after a complete set-up: the action manager is closed, then
    the saved searches are destructed, then the plugin manager is deleted. *)
Lemma on_quit_spec (st : Astroid) :
  actions st = true -> plugin_manager st = true ->
  exists tr,
    on_quit st = (Val tt, with_lt st false (trace st ++ tr))
    /\ teardowns tr = [ActionManager; SavedSearches; PluginManager]
    /\ inits tr = [].
Proof.
  intros Ha Hp. unfold on_quit.
  do 2 mstep. rewrite Ha. do 3 mstep. rewrite Hp. do 2 mstep.
  destruct (logf_is_open st) eqn:Ho.
  - repeat mstep.
    exists [log_line debug "astroid: quitting.."; teardown ActionManager;
            teardown SavedSearches; teardown PluginManager; log_del_logf;
            logf_closed; log_line info "astroid: goodbye!"].
    split; [|split; reflexivity].
    unfold log, emit, with_lt. st_simpl. rewrite <- !app_assoc.
    f_equal. f_equal; congruence.
  - repeat mstep.
    exists [log_line debug "astroid: quitting.."; teardown ActionManager;
            teardown SavedSearches; teardown PluginManager;
            log_line info "astroid: goodbye!"].
    split; [|split; reflexivity].
    unfold log, emit, with_lt. st_simpl. rewrite <- !app_assoc.
    f_equal. f_equal; congruence.
Qed.

(** The primary path, from the command line to the return from [main]:
    what is set up and torn down, and the windows that exist at the end. *)
Lemma run_primary (w : World) (vm : variables_map) :
  vm_help vm = false -> vm_new_config vm = false ->
  registration w = Primary ->
  (vm_config vm = None \/ vm_test_config vm = false) ->
  exists st,
    run w (parsed vm) = (Val 0%Z, st)
    /\ inits (trace st) = init_order
    /\ teardowns (trace st) = [ActionManager; SavedSearches; PluginManager]
    /\ activated st = loop_flag false (events w)
    /\ windows st =
         match vm_mailto vm with
         | Some url => compose_window (decode url)
         | None => default_window (new_Config w (config_source vm))
         end :: loop_windows (new_Config w (config_source vm)) false (events w).
Proof.
  intros Hh Hn Hr Hc.
  unfold run, main, astroid0. cbn [parse_command_line].
  mstep. rewrite Hh. mstep.
  destruct (open_log_file_spec w vm
              {| activated := false; m_config := None; logf_is_open := false;
                 plugin_manager := false; actions := false; windows := [];
                 trace := [] |}) as (o & tr0 & E0 & C0).
  rewrite (bind_Val _ _ _ _ _ E0). unfold with_lt; st_simpl.
  unfold make_new_config. rewrite Hn. mstep.
  clear E0.
  destruct (vm_no_auto_poll vm); mstep;
  destruct (vm_mailto vm) as [url|]; mstep.
  all: unfold register_application, is_remote; rewrite Hr; do 4 mstep.
  all: unfold load_config, config_source, init_subsystems, config.
  all: destruct (vm_config vm) as [cnf|], (vm_test_config vm);
    try (destruct Hc; discriminate).
  all: repeat mstep.
  all: rewrite ?bind_assoc.
  all: try match goal with
       | |- context [bind (open_new_window true) _ ?ST] =>
           rewrite (bind_Val _ _ _ _ _ (open_new_window_true _ ST eq_refl))
       end.
  all: try rewrite (bind_Val _ _ _ _ _ (open_new_window_false _)).
  all: try rewrite (bind_Val _ _ _ _ _ (send_mailto_decode _ _ _)).
  all: unfold with_wt; st_simpl.
  all: repeat mstep.
  all: match goal with
       | |- context [bind (app_run ?e) _ ?ST] =>
           destruct (app_run_windows _ e ST eq_refl) as (tr1 & E1 & I1 & T1);
           rewrite (bind_Val _ _ _ _ _ E1); clear E1
       end.
  all: unfold with_awt; st_simpl.
  all: match goal with
       | |- context [bind on_quit _ ?ST] =>
           destruct (on_quit_spec ST eq_refl eq_refl) as (tr2 & E2 & T2 & I2);
           rewrite (bind_Val _ _ _ _ _ E2); clear E2
       end.
  all: unfold with_lt; st_simpl.
  all: eexists; split; [reflexivity|]; st_simpl.
  all: rewrite !inits_app, !teardowns_app, ?inits_query_effects,
         ?teardowns_query_effects, I1, I2, T1, T2,
         (core_nil_inits _ C0), (core_nil_teardowns _ C0).
  all: try match goal with
       | |- context [show_on_startup ?c] => destruct (show_on_startup c)
       end.
  all: repeat split; reflexivity.
Qed.

(** The start of [main], up to and including the log file set-up, when
    help is not shown. *)
Ltac main_start Hh :=
  unfold run, main, astroid0; cbn [parse_command_line];
  mstep; rewrite Hh; mstep;
  match goal with
  | |- context [bind (open_log_file ?w ?vm) _ ?ST] =>
      let o := fresh "o" in
      let tr0 := fresh "tr0" in
      let E0 := fresh "E0" in
      let C0 := fresh "C0" in
      destruct (open_log_file_spec w vm ST) as (o & tr0 & E0 & C0);
      rewrite (bind_Val _ _ _ _ _ E0); clear E0;
      unfold with_lt; st_simpl
  end.

Ltac core_solve C0 :=
  st_simpl; rewrite ?core_app, ?C0; reflexivity.

(** Help: an undeclared option, or [--help]. *)
Lemma run_unknown_option (w : World) (what : string) :
  run w (unknown_option what) =
  (Exit 0%Z,
   with_wt astroid0 [] [cout "unknown option"; cout what; cout_desc]).
Proof.
  unfold run, main, astroid0. cbn [parse_command_line].
  repeat mstep. reflexivity.
Qed.

Lemma run_help (w : World) (vm : variables_map) :
  vm_help vm = true ->
  run w (parsed vm) = (Exit 0%Z, with_wt astroid0 [] [cout_desc]).
Proof.
  intros Hh. unfold run, main, astroid0. cbn [parse_command_line].
  mstep. rewrite Hh. repeat mstep. reflexivity.
Qed.

Lemma open_log_file_exact (w : World) (vm : variables_map) (st : Astroid) :
  open_log_file w vm st =
  (Val tt,
   with_lt st
     (match vm_log vm with
      | Some lfile => logf_good w lfile
      | None => logf_is_open st
      end)
     (trace st ++ log_file_effects w vm)).
Proof.
  unfold open_log_file, log_file_effects. destruct (vm_log vm) as [lfile|].
  - destruct (logf_good w lfile) eqn:Hg.
    + monad_unfold. cbn. unfold with_lt. f_equal. f_equal.
      rewrite <- !app_assoc. reflexivity.
    + monad_unfold. cbn. unfold with_lt. f_equal. f_equal.
      rewrite <- !app_assoc. reflexivity.
  - rewrite app_nil_r. now destruct st.
Qed.

Lemma core_log_file_effects (w : World) (vm : variables_map) :
  core (log_file_effects w vm) = [].
Proof.
  unfold log_file_effects. destruct (vm_log vm) as [lfile|]; [|reflexivity].
  now destruct (logf_good w lfile).
Qed.

Lemma touches_log_file_effects (w : World) (vm : variables_map)
    (p : ustring) :
  existsb (touches_file w p) (log_file_effects w vm) = log_touches w vm p.
Proof.
  unfold log_file_effects, log_touches.
  destruct (vm_log vm) as [lfile|]; [|reflexivity].
  destruct (logf_good w lfile) eqn:Hg; cbn; rewrite Hg; cbn;
    now rewrite ?orb_false_r.
Qed.

(** The start of [main] up to the [--new-config] block, when help is not
    shown, with the log file effects in closed form. *)
Ltac main_to_new_config Hh :=
  unfold run, main, astroid0; cbn [parse_command_line];
  mstep; rewrite Hh; mstep;
  rewrite (bind_Val _ _ _ _ _ (open_log_file_exact _ _ _));
  unfold with_lt; st_simpl.

(** The answer of [exists] in the [--new-config] block. *)
Ltac exists_answer Hx :=
  rewrite ?existsb_app, ?touches_log_file_effects;
  cbn [existsb touches_file]; rewrite ?orb_false_r; cbn [orb];
  rewrite Hx.

Lemma run_new_config_refused (w : World) (vm : variables_map) :
  vm_help vm = false -> vm_new_config vm = true ->
  vm_test_config vm = true
  \/ file_exists w vm (new_config_target w vm) = true ->
  exists st msg,
    run w (parsed vm) = (Exit 1%Z, st)
    /\ core (trace st) = []
    /\ last (trace st) = Some (log_line error msg)
    /\ windows st = []
    /\ (forall e, In e (trace st) ->
        In e (log_file_effects w vm) \/ exists l s, e = log_line l s).
Proof.
  intros Hh Hn Hx. main_to_new_config Hh.
  unfold make_new_config, file_exists, new_config_target in *. rewrite Hn.
  assert (Hin : forall (e : effect) (t : list effect),
             In e (([] ++ log_file_effects w vm) ++ t) ->
             (forall e', In e' t -> exists l s, e' = log_line l s) ->
             In e (log_file_effects w vm) \/ exists l s, e = log_line l s).
  { intros e t H Ht. rewrite !in_app_iff in H.
    destruct H as [[[]|H]|H]; [now left | right; now apply Ht]. }
  destruct (vm_test_config vm) eqn:Ht.
  - repeat mstep. eexists _, _. split; [reflexivity|].
    split; [st_simpl; rewrite !core_app, core_log_file_effects; reflexivity|].
    split; [apply last_snoc|]. split; [reflexivity|].
    st_simpl. intros e H. apply (Hin e _ H).
    intros e' [<-|[]]; eauto.
  - destruct Hx as [Hx|Hx]; [discriminate|].
    destruct (vm_config vm) as [cnf|].
    + repeat mstep. exists_answer Hx. repeat mstep.
      eexists _, _. split; [reflexivity|].
      split; [st_simpl; rewrite !core_app, core_log_file_effects; reflexivity|].
      split; [apply last_snoc|]. split; [reflexivity|].
      st_simpl. intros e H. rewrite <- app_assoc in H. apply (Hin e _ H).
      intros e' [<-|[<-|[]]]; eauto.
    + repeat mstep. exists_answer Hx. repeat mstep.
      eexists _, _. split; [reflexivity|].
      split; [st_simpl; rewrite !core_app, core_log_file_effects; reflexivity|].
      split; [apply last_snoc|]. split; [reflexivity|].
      st_simpl. intros e H. rewrite <- app_assoc in H. apply (Hin e _ H).
      intros e' [<-|[<-|[]]]; eauto.
Qed.

Lemma run_new_config_written (w : World) (vm : variables_map) :
  vm_help vm = false -> vm_new_config vm = true ->
  vm_test_config vm = false ->
  file_exists w vm (new_config_target w vm) = false ->
  exists st,
    run w (parsed vm) = (Exit 0%Z, st)
    /\ core (trace st) = [config_written (new_config_target w vm)]
    /\ windows st = []
    /\ m_config st = None.
Proof.
  intros Hh Hn Ht Hx. main_to_new_config Hh.
  unfold make_new_config, file_exists, new_config_target in *.
  rewrite Hn, Ht.
  destruct (vm_config vm) as [cnf|].
  - repeat mstep. exists_answer Hx. repeat mstep.
    eexists. split; [reflexivity|].
    split; [st_simpl; rewrite !core_app, core_log_file_effects; reflexivity|].
    split; reflexivity.
  - repeat mstep. exists_answer Hx. repeat mstep.
    eexists. split; [reflexivity|].
    split; [st_simpl; rewrite !core_app, core_log_file_effects; reflexivity|].
    split; reflexivity.
Qed.

(** The secondary path: the request is forwarded and [main] returns 0. *)
Lemma run_remote (w : World) (vm : variables_map) :
  vm_help vm = false -> vm_new_config vm = false ->
  registration w = Remote ->
  exists st,
    run w (parsed vm) = (Val 0%Z, st)
    /\ core (trace st) =
         [app_created "org.astroid"; app_registered; forwarded vm]
    /\ windows st = [].
Proof.
  intros Hh Hn Hr. main_start Hh.
  unfold make_new_config, forwarded. rewrite Hn. mstep.
  destruct (vm_no_auto_poll vm); mstep;
    destruct (vm_mailto vm) as [url|]; mstep.
  all: unfold register_application, is_remote; rewrite Hr; repeat mstep.
  all: eexists; split; [reflexivity|]; split; [core_solve C0 | reflexivity].
Qed.

(** A failed registration: the exception leaves [main] right after the
    call. *)
Lemma run_registration_failed (w : World) (vm : variables_map) :
  vm_help vm = false -> vm_new_config vm = false ->
  registration w = RegistrationFailed ->
  exists st,
    run w (parsed vm) = (Throw Gio_Error, st)
    /\ core (trace st) = [app_created "org.astroid"; app_registered]
    /\ last (trace st) = Some app_registered
    /\ windows st = [].
Proof.
  intros Hh Hn Hr. main_start Hh.
  unfold make_new_config. rewrite Hn. mstep.
  destruct (vm_no_auto_poll vm); mstep;
    destruct (vm_mailto vm) as [url|]; mstep.
  all: unfold register_application; rewrite Hr; repeat mstep.
  all: eexists; split; [reflexivity|]; split; [core_solve C0|].
  all: split; [apply last_snoc | reflexivity].
Qed.

(** [--config] together with [--test-config] in the first instance: the
    conflict is found when the configuration is about to be loaded. *)
Lemma run_primary_config_conflict (w : World) (vm : variables_map)
    (cnf : ustring) :
  vm_help vm = false -> vm_new_config vm = false ->
  registration w = Primary ->
  vm_config vm = Some cnf -> vm_test_config vm = true ->
  exists st,
    run w (parsed vm) = (Exit 1%Z, st)
    /\ core (trace st) =
         [app_created "org.astroid"; app_registered; connect_activate;
          add_action "mailto"]
    /\ last (trace st) =
         Some (log_line error
                 "--config cannot be specified together with --test-config.")
    /\ windows st = [].
Proof.
  intros Hh Hn Hr Hcnf Ht. main_start Hh.
  unfold make_new_config. rewrite Hn. mstep.
  destruct (vm_no_auto_poll vm); mstep;
    destruct (vm_mailto vm) as [url|]; mstep.
  all: unfold register_application, is_remote; rewrite Hr; do 4 mstep.
  all: unfold load_config; rewrite Hcnf, Ht; repeat mstep.
  all: eexists; split; [reflexivity|]; split; [core_solve C0|].
  all: split; [apply last_snoc | reflexivity].
Qed.

(** [main] returns (rather than exits or throws) in the first instance only
    after the whole primary path. *)
Lemma run_primary_returns (w : World) (pr : ParseResult) (n : Z)
    (st : Astroid) :
  registration w = Primary -> run w pr = (Val n, st) ->
  exists vm,
    pr = parsed vm /\ vm_help vm = false /\ vm_new_config vm = false
    /\ (vm_config vm = None \/ vm_test_config vm = false).
Proof.
  intros Hr Hrun. destruct pr as [vm|what|].
  - exists vm. split; [reflexivity|].
    destruct (vm_help vm) eqn:Hh.
    { rewrite (run_help w vm Hh) in Hrun. discriminate. }
    destruct (vm_new_config vm) eqn:Hn.
    { destruct (vm_test_config vm) eqn:Ht.
      - destruct (run_new_config_refused w vm Hh Hn (or_introl Ht))
          as (st1 & msg & E & _). rewrite E in Hrun. discriminate.
      - destruct (file_exists w vm (new_config_target w vm)) eqn:Hx.
        + destruct (run_new_config_refused w vm Hh Hn (or_intror Hx))
            as (st1 & msg & E & _). rewrite E in Hrun. discriminate.
        + destruct (run_new_config_written w vm Hh Hn Ht Hx)
            as (st1 & E & _). rewrite E in Hrun. discriminate. }
    destruct (vm_config vm) as [cnf|] eqn:Hcnf; [|now auto].
    destruct (vm_test_config vm) eqn:Ht; [|now auto].
    destruct (run_primary_config_conflict w vm cnf Hh Hn Hr Hcnf Ht)
      as (st1 & E & _). rewrite E in Hrun. discriminate.
  - rewrite run_unknown_option in Hrun. discriminate.
  - discriminate.
Qed.

(** ** The mailto decoder *)

(** Without a scheme the text is the recipient, unchanged. *)
Lemma decode_no_scheme (raw : ustring) :
  Glib.uri_parse_scheme raw = EmptyString -> decode raw = raw.
Proof. intros H. unfold decode. now rewrite H. Qed.

(** With the scheme [mailto] the colon that follows the scheme stays in
    front of the recipient. *)
Lemma decode_mailto (addr : ustring) :
  decode ("mailto:" ++ addr)%string = String ":" (up_to_query addr).
Proof.
  unfold decode, up_to_query, find.
  change (Glib.uri_parse_scheme ("mailto:" ++ addr)%string) with "mailto".
  change (String.length "mailto") with 6.
  change (String.length ("mailto:" ++ addr)%string) with (7 + String.length addr).
  change (7 + String.length addr - 6) with (S (String.length addr)).
  change (substring 6 (S (String.length addr)) ("mailto:" ++ addr)%string)
    with (String ":" (substring 0 (String.length addr) addr)).
  rewrite substring_0_length.
  change (index 0 "?" (String ":" addr))
    with (match index 0 "?" addr with Some n => Some (S n) | None => None end).
  destruct (index 0 "?" addr) as [p|]; cbn.
  - reflexivity.
  - now rewrite substring_0_length.
Qed.

(** Decoding never fails: [send_mailto] always completes, whatever the
    text (see [send_mailto_decode]). *)
Lemma send_mailto_total (mw : nat) (url : ustring) (st : Astroid) :
  fst (send_mailto mw url st) = Val tt.
Proof. now rewrite send_mailto_decode. Qed.

(** C1 (the code departs from the specification).  For the text [mailto:foo@bar.com] the recipient that
    [send_mailto] extracts is [:foo@bar.com], not [foo@bar.com]:
    [Glib::uri_parse_scheme] returns the scheme without its colon, and
    [url.substr (scheme.length (), ...)] therefore starts at the colon.
    The compose mode of the new window is addressed to that text.  The same
    happens for every text [mailto:addr]: the recipient is the colon
    followed by [addr] up to its first ['?']. *)
Theorem C1_mailto_recipient_keeps_colon :
  decode "mailto:foo@bar.com" = ":foo@bar.com"
  /\ decode "mailto:foo@bar.com" <> "foo@bar.com"
  /\ fst (on_mailto_activate "mailto:foo@bar.com" astroid0) = Val tt
  /\ windows (snd (on_mailto_activate "mailto:foo@bar.com" astroid0))
     = [{| modes := [{| kind := new_EditMessage ":foo@bar.com";
                        invincible := false |}];
           active := None; shown := true |}]
  /\ (forall addr : ustring,
        decode ("mailto:" ++ addr)%string = String ":" (up_to_query addr)).
Proof.
  split; [reflexivity|]. split; [discriminate|].
  split; [reflexivity|]. split; [reflexivity|].
  exact decode_mailto.
Qed.

(** ** Set-up and tear-down order *)

Lemma In_core (e : effect) (tr : list effect) :
  In e tr -> is_logging e = false -> In e (core tr).
Proof.
  intros Hin He. unfold core. apply List.filter_In. split; [assumption|].
  now rewrite He.
Qed.

(** C2 (counterexample).  In a plain primary run the three tear-down calls
    of [on_quit] are not in the reverse of the order in which the same three
    subsystems were set up: the saved searches, set up before the plugin
    manager, are also destructed before it. *)
Lemma C2_teardown_not_reverse_of_init :
  let st := snd (run (example_world false Primary [activate]) (parsed vm_empty)) in
  fst (run (example_world false Primary [activate]) (parsed vm_empty)) = Val 0%Z
  /\ teardowns (trace st) = [ActionManager; SavedSearches; PluginManager]
  /\ List.filter (fun s => bool_decide (s ∈ teardowns (trace st)))
       (inits (trace st))
     = [SavedSearches; PluginManager; ActionManager]
  /\ teardowns (trace st)
     <> rev (List.filter (fun s => bool_decide (s ∈ teardowns (trace st)))
               (inits (trace st))).
Proof.
  vm_compute. repeat split; discriminate.
Qed.

(** C2 (amended).  On the primary path, when [main] returns, the subsystems
    have been set up in the order Date, Utils, Db, Keybindings,
    SavedSearches, AccountManager, PluginManager, ActionManager, Poll, and
    [on_quit] has torn down, in this order, the action manager (closed), the
    saved searches (destructed) and the plugin manager (deleted). *)
Theorem C2_init_and_teardown_order (w : World) (pr : ParseResult) (n : Z)
    (st : Astroid) :
  registration w = Primary ->
  run w pr = (Val n, st) ->
  inits (trace st) =
    [Date; Utils; Db; Keybindings; SavedSearches; AccountManager;
     PluginManager; ActionManager; Poll]
  /\ teardowns (trace st) = [ActionManager; SavedSearches; PluginManager].
Proof.
  intros Hr Hrun.
  destruct (run_primary_returns w pr n st Hr Hrun) as (vm & -> & Hh & Hn & Hc).
  destruct (run_primary w vm Hh Hn Hr Hc) as (st1 & E & I & T & _).
  rewrite E in Hrun. injection Hrun as _ <-. now split.
Qed.

(** The order of set-up and tear-down in a plain primary run. *)
Lemma C2_init_and_teardown_order_witness :
  registration (example_world false Primary [activate]) = Primary
  /\ inits (trace (snd (run (example_world false Primary [activate])
                          (parsed vm_empty)))) =
       [Date; Utils; Db; Keybindings; SavedSearches; AccountManager;
        PluginManager; ActionManager; Poll]
  /\ teardowns (trace (snd (run (example_world false Primary [activate])
                              (parsed vm_empty)))) =
       [ActionManager; SavedSearches; PluginManager].
Proof.
  split; [reflexivity|].
  apply (C2_init_and_teardown_order
           (example_world false Primary [activate]) (parsed vm_empty) 0%Z).
  - reflexivity.
  - vm_compute. reflexivity.
Defined.

(** ** The activation flag *)

Lemma loop_windows_activate_true (c : Config) (k : nat) :
  loop_windows c true (repeat activate k) = repeat (default_window c) k.
Proof. induction k as [|k IH]; simpl; [reflexivity | now rewrite IH]. Qed.

Lemma loop_windows_activate_false (c : Config) (k : nat) :
  loop_windows c false (repeat activate k) = repeat (default_window c) (k - 1).
Proof.
  destruct k as [|k]; simpl; [reflexivity|].
  rewrite Nat.sub_0_r. apply loop_windows_activate_true.
Qed.

Lemma loop_flag_activate (a : bool) (k : nat) :
  loop_flag a (repeat activate (S k)) = true.
Proof.
  simpl. clear a. induction k as [|k IH]; [reflexivity | exact IH].
Qed.

(** C3 (counterexample).  When two activation events reach the handler
    during the start-up of the first instance, two default windows exist at
    the end: the one [main] opens and one opened by the handler for the
    second event. *)
Lemma C3_two_activations_two_windows :
  windows (snd (run (example_world false Primary [activate; activate])
                  (parsed vm_empty)))
  = [default_window example_config; default_window example_config]
  /\ List.length
       (windows (snd (run (example_world false Primary [activate; activate])
                        (parsed vm_empty)))) <> 1.
Proof. vm_compute. split; [reflexivity | discriminate]. Qed.

(** C3 (amended).  In the start-up of the first instance without
    [--mailto], [main] itself opens one default window; of the [k >= 1]
    activation events that the loop then dispatches, the handler swallows
    the first and opens one more default window for each of the other
    [k - 1].  Exactly one default window results when [k = 1]. *)
Theorem C3_first_activation_swallowed (w : World) (vm : variables_map)
    (k : nat) :
  registration w = Primary ->
  vm_help vm = false -> vm_new_config vm = false ->
  (vm_config vm = None \/ vm_test_config vm = false) ->
  vm_mailto vm = None ->
  events w = repeat activate k -> 1 <= k ->
  exists st,
    run w (parsed vm) = (Val 0%Z, st)
    /\ activated st = true
    /\ windows st =
         default_window (new_Config w (config_source vm))
         :: repeat (default_window (new_Config w (config_source vm))) (k - 1)
    /\ (k = 1 ->
        windows st = [default_window (new_Config w (config_source vm))]).
Proof.
  intros Hr Hh Hn Hc Hm He Hk.
  destruct (run_primary w vm Hh Hn Hr Hc) as (st & E & _ & _ & A & W).
  exists st. rewrite Hm, He, loop_windows_activate_false in W.
  rewrite He in A. destruct k as [|k]; [lia|].
  rewrite loop_flag_activate in A.
  repeat split; try assumption. intros [= ->]. exact W.
Qed.

(** One activation event during start-up: one default window. *)
Lemma C3_first_activation_swallowed_witness :
  windows (snd (run (example_world false Primary (repeat activate 1))
                  (parsed vm_empty)))
  = [default_window example_config].
Proof.
  destruct (C3_first_activation_swallowed
              (example_world false Primary (repeat activate 1)) vm_empty 1
              eq_refl eq_refl eq_refl (or_introl eq_refl) eq_refl eq_refl
              (le_n 1)) as (st & E & _ & _ & W1).
  rewrite E. exact (W1 eq_refl).
Defined.

(** ** Forwarding to the first instance *)

(** [main] gets as far as the registration only when help is not shown
    and [--new-config] is not given. *)
Lemma registered_inv (w : World) (pr : ParseResult) (r : Res Z)
    (st : Astroid) :
  run w pr = (r, st) -> In app_registered (trace st) ->
  exists vm, pr = parsed vm /\ vm_help vm = false /\ vm_new_config vm = false.
Proof.
  intros Hrun Hin.
  assert (Hcore : In app_registered (core (trace st)))
    by (apply In_core; [assumption | reflexivity]).
  clear Hin. destruct pr as [vm|what|].
  - exists vm. split; [reflexivity|].
    destruct (vm_help vm) eqn:Hh.
    { rewrite (run_help w vm Hh) in Hrun. injection Hrun as _ <-.
      destruct Hcore. }
    destruct (vm_new_config vm) eqn:Hn; [exfalso | now split].
    destruct (vm_test_config vm) eqn:Ht.
    + destruct (run_new_config_refused w vm Hh Hn (or_introl Ht))
        as (st1 & msg & E & C & _).
      rewrite E in Hrun. injection Hrun as _ <-. rewrite C in Hcore.
      destruct Hcore.
    + destruct (file_exists w vm (new_config_target w vm)) eqn:Hx.
      * destruct (run_new_config_refused w vm Hh Hn (or_intror Hx))
          as (st1 & msg & E & C & _).
        rewrite E in Hrun. injection Hrun as _ <-. rewrite C in Hcore.
        destruct Hcore.
      * destruct (run_new_config_written w vm Hh Hn Ht Hx) as (st1 & E & C & _).
        rewrite E in Hrun. injection Hrun as _ <-. rewrite C in Hcore.
        destruct Hcore as [Hc|[]]. discriminate.
  - rewrite run_unknown_option in Hrun. injection Hrun as _ <-.
    destruct Hcore.
  - injection Hrun as _ <-. destruct Hcore.
Qed.

(** A process started with [--mailto addr] that registers and finds
    another instance running forwards the action [mailto] with the text
    [addr] as given, opens no window, and returns 0.  In the first instance
    the handler of that action opens one new window that holds one compose
    mode, addressed to what [send_mailto] extracts from the text. *)
Lemma mailto_forwarded_and_composed (w : World) (vm : variables_map) (addr : ustring)
    (r : Res Z) (st : Astroid) (primary : Astroid) :
  vm_mailto vm = Some addr ->
  registration w = Remote ->
  run w (parsed vm) = (r, st) ->
  In app_registered (trace st) ->
  (r = Val 0%Z
   /\ core (trace st) =
        [app_created "org.astroid"; app_registered;
         app_activate_action "mailto" addr]
   /\ windows st = [])
  /\ fst (on_mailto_activate addr primary) = Val tt
  /\ windows (snd (on_mailto_activate addr primary)) =
       windows primary ++
       [{| modes := [{| kind := new_EditMessage (decode addr);
                        invincible := false |}];
           active := None; shown := true |}].
Proof.
  intros Hm Hr Hrun Hin. split.
  - destruct (registered_inv w _ r st Hrun Hin) as (vm' & [= <-] & Hh & Hn).
    destruct (run_remote w vm Hh Hn Hr) as (st1 & E & C & W).
    rewrite E in Hrun. injection Hrun as <- <-.
    unfold forwarded in C. rewrite Hm in C. now repeat split.
  - rewrite on_mailto_activate_window. split; reflexivity.
Qed.

(** [astroid --mailto foo@bar.com] while an instance is running. *)
Lemma mailto_forwarded_and_composed_example :
  fst (run (example_world false Remote []) (parsed vm_mailto_foo)) = Val 0%Z
  /\ core (trace (snd (run (example_world false Remote [])
                         (parsed vm_mailto_foo)))) =
       [app_created "org.astroid"; app_registered;
        app_activate_action "mailto" "foo@bar.com"]
  /\ windows (snd (on_mailto_activate "foo@bar.com" astroid0)) =
       [{| modes := [{| kind := new_EditMessage "foo@bar.com";
                        invincible := false |}];
           active := None; shown := true |}].
Proof.
  destruct (mailto_forwarded_and_composed (example_world false Remote [])
              vm_mailto_foo
              "foo@bar.com"
              (fst (run (example_world false Remote []) (parsed vm_mailto_foo)))
              (snd (run (example_world false Remote []) (parsed vm_mailto_foo)))
              astroid0 eq_refl eq_refl)
    as ((R & C & _) & _ & W).
  - vm_compute. reflexivity.
  - vm_compute. auto.
  - split; [exact R|]. split; [exact C | exact W].
Defined.

(** C4 (the code departs from the specification).
    [astroid --mailto mailto:foo@bar.com] while another instance is running:
    the process forwards the action [mailto] with the text as given, opens
    no window and returns 0, as specified.  On receipt the first instance
    opens one window with one compose mode, but that mode is addressed to
    [:foo@bar.com], while the recipient the specification decodes from
    the text is [foo@bar.com]: [send_mailto] leaves the colon that follows
    the scheme in front of the address (the defect shown for C1). *)
Theorem C4_forwarded_mailto_url_keeps_colon :
  fst (run (example_world false Remote []) (parsed vm_mailto_url)) = Val 0%Z
  /\ core (trace (snd (run (example_world false Remote [])
                         (parsed vm_mailto_url)))) =
       [app_created "org.astroid"; app_registered;
        app_activate_action "mailto" "mailto:foo@bar.com"]
  /\ windows (snd (run (example_world false Remote [])
                     (parsed vm_mailto_url))) = []
  /\ windows (snd (on_mailto_activate "mailto:foo@bar.com" astroid0)) =
       [{| modes := [{| kind := new_EditMessage ":foo@bar.com";
                        invincible := false |}];
           active := None; shown := true |}]
  /\ spec_decode "mailto:foo@bar.com" = "foo@bar.com"
  /\ ":foo@bar.com" <> spec_decode "mailto:foo@bar.com".
Proof. vm_compute. repeat split; discriminate. Qed.

(** ** Conflicting options and failures *)

(** C5 (counterexample).  [--config X --test-config] while another instance
    is running: the request is forwarded and the exit status is 0; the
    conflict is never looked at. *)
Lemma C5_conflict_unnoticed_when_remote :
  exit_status (fst (run (example_world false Remote []) (parsed vm_config_test)))
  = Some 0%Z
  /\ exit_status
       (fst (run (example_world false Remote []) (parsed vm_config_test)))
     <> Some 1%Z.
Proof. vm_compute. split; [reflexivity | discriminate]. Qed.

(** C5 (amended).  With [--config] and [--test-config] together, when help
    is not shown and the process either was also given [--new-config] or
    becomes the first instance, the process exits with status 1 and no
    subsystem is set up and no window opened. *)
Theorem C5_config_conflict_exits_1 (w : World) (vm : variables_map)
    (cnf : ustring) :
  vm_config vm = Some cnf -> vm_test_config vm = true ->
  vm_help vm = false ->
  vm_new_config vm = true \/ registration w = Primary ->
  exists st,
    run w (parsed vm) = (Exit 1%Z, st)
    /\ inits (trace st) = []
    /\ windows st = [].
Proof.
  intros Hcnf Ht Hh Hcase.
  destruct (vm_new_config vm) eqn:Hn.
  - destruct (run_new_config_refused w vm Hh Hn (or_introl Ht))
      as (st & msg & E & C & _ & W & _).
    exists st. split; [assumption|]. split; [|assumption].
    now apply core_nil_inits.
  - destruct Hcase as [Hcase|Hr]; [discriminate|].
    destruct (run_primary_config_conflict w vm cnf Hh Hn Hr Hcnf Ht)
      as (st & E & C & _ & W).
    exists st. split; [assumption|]. split; [|assumption].
    now rewrite <- inits_core, C.
Qed.

(** [astroid --config X --test-config] in the first instance. *)
Lemma C5_config_conflict_exits_1_witness :
  run (example_world false Primary []) (parsed vm_config_test)
  = (Exit 1%Z, snd (run (example_world false Primary []) (parsed vm_config_test)))
  /\ inits (trace (snd (run (example_world false Primary [])
                          (parsed vm_config_test)))) = [].
Proof.
  destruct (C5_config_conflict_exits_1 (example_world false Primary [])
              vm_config_test "X" eq_refl eq_refl eq_refl (or_intror eq_refl))
    as (st & E & I & _).
  rewrite E. split; [reflexivity | exact I].
Defined.

(** C6 (counterexample).  When the registration fails, [main] is left by
    the exception of [register_application]: there is no exit status 1 and
    no error line in the log. *)
Lemma C6_registration_failure_not_reported :
  fst (run (example_world false RegistrationFailed []) (parsed vm_empty))
  = Throw Gio_Error
  /\ exit_status
       (fst (run (example_world false RegistrationFailed []) (parsed vm_empty)))
     <> Some 1%Z
  /\ trace (snd (run (example_world false RegistrationFailed [])
                   (parsed vm_empty)))
     = [log_line debug "loading gtk.."; app_created "org.astroid";
        app_registered].
Proof. vm_compute. repeat split; discriminate. Qed.

(** C6 (amended).  If the registration with the host session fails, the
    process does not proceed as primary: no handler is connected, no
    subsystem set up and no window opened.  [main] neither reports the
    failure nor calls [exit (1)]; the exception thrown by
    [register_application] leaves [main] uncaught, and the call is the last
    thing [main] does. *)
Theorem C6_registration_failure_escapes (w : World) (pr : ParseResult)
    (r : Res Z) (st : Astroid) :
  registration w = RegistrationFailed ->
  run w pr = (r, st) ->
  In app_registered (trace st) ->
  r = Throw Gio_Error
  /\ exit_status r = None
  /\ last (trace st) = Some app_registered
  /\ core (trace st) = [app_created "org.astroid"; app_registered]
  /\ inits (trace st) = []
  /\ windows st = [].
Proof.
  intros Hr Hrun Hin.
  destruct (registered_inv w pr r st Hrun Hin) as (vm & -> & Hh & Hn).
  destruct (run_registration_failed w vm Hh Hn Hr) as (st1 & E & C & L & W).
  rewrite E in Hrun. injection Hrun as <- <-.
  repeat split; try assumption. now rewrite <- inits_core, C.
Qed.

(** A plain start with a host session that refuses the registration. *)
Lemma C6_registration_failure_escapes_witness :
  fst (run (example_world false RegistrationFailed []) (parsed vm_empty))
  = Throw Gio_Error
  /\ inits (trace (snd (run (example_world false RegistrationFailed [])
                          (parsed vm_empty)))) = [].
Proof.
  destruct (C6_registration_failure_escapes
              (example_world false RegistrationFailed []) (parsed vm_empty)
              (fst (run (example_world false RegistrationFailed [])
                      (parsed vm_empty)))
              (snd (run (example_world false RegistrationFailed [])
                      (parsed vm_empty)))
              eq_refl)
    as (R & _ & _ & _ & I & _).
  - vm_compute. reflexivity.
  - vm_compute. auto.
  - split; [exact R | exact I].
Defined.

Lemma log_file_effects_touch (w : World) (vm : variables_map) (p : ustring)
    (e : effect) :
  log_touches w vm p = false -> In e (log_file_effects w vm) ->
  touches_file w p e = false.
Proof.
  intros Hl Hin. rewrite <- touches_log_file_effects in Hl.
  destruct (touches_file w p e) eqn:He; [|reflexivity].
  assert (H : existsb (touches_file w p) (log_file_effects w vm) = true)
    by (apply existsb_exists; eauto).
  congruence.
Qed.

(** C9 (counterexample).  Two command lines with [--new-config] and the
    target file already there.  With [--help] as well, the help text is
    printed and the exit status is 0.  With [--config F --log F], the exit
    status is 1, but [logf.open] has opened [F] for writing, without
    [--append-log], before the check: the existing file is emptied. *)
Lemma C9_help_or_log_file_goes_first :
  (run (example_world true Primary []) (parsed vm_new_help)
   = (Exit 0%Z, with_wt astroid0 [] [cout_desc])
   /\ exit_status
        (fst (run (example_world true Primary []) (parsed vm_new_help)))
      <> Some 1%Z)
  /\ (fst (run (example_world true Primary []) (parsed vm_new_log_target))
      = Exit 1%Z
      /\ In (logf_opened "F" false)
           (trace (snd (run (example_world true Primary [])
                          (parsed vm_new_log_target))))
      /\ existsb (touches_file (example_world true Primary []) "F")
           (trace (snd (run (example_world true Primary [])
                          (parsed vm_new_log_target)))) = true).
Proof.
  vm_compute. split; [split; [reflexivity | discriminate]|].
  split; [reflexivity|]. split; [now left | reflexivity].
Qed.

(** C9 (amended).  With [--new-config], when help is not shown: if the
    target file (the path given by [--config], the default path otherwise)
    exists, or if [--test-config] is given as well, an error is logged and
    the process exits with status 1; no configuration is written, and the
    application is neither created nor registered.  The target file is not
    touched at all, provided the log file opened for [--log] is not that
    file: no call of the run creates, empties or writes it. *)
Theorem C9_new_config_refused (w : World) (vm : variables_map) :
  vm_new_config vm = true ->
  vm_help vm = false ->
  exists_ w (new_config_target w vm) = true \/ vm_test_config vm = true ->
  exists st msg,
    run w (parsed vm) = (Exit 1%Z, st)
    /\ last (trace st) = Some (log_line error msg)
    /\ core (trace st) = []
    /\ (forall p, ~ In (config_written p) (trace st))
    /\ ~ In app_registered (trace st)
    /\ (log_touches w vm (new_config_target w vm) = false ->
        forall e, In e (trace st) ->
        touches_file w (new_config_target w vm) e = false).
Proof.
  intros Hn Hh Hcase.
  destruct (run_new_config_refused w vm Hh Hn)
    as (st & msg & E & C & L & _ & T).
  { destruct Hcase as [Hx|Ht]; [right | now left].
    unfold file_exists. now rewrite Hx. }
  exists st, msg. repeat split; try assumption.
  - intros p Hin. apply In_core in Hin; [|reflexivity].
    rewrite C in Hin. destruct Hin.
  - intros Hin. apply In_core in Hin; [|reflexivity].
    rewrite C in Hin. destruct Hin.
  - intros Hl e Hin. destruct (T e Hin) as [He|(l & m & ->)].
    + now apply (log_file_effects_touch w vm).
    + reflexivity.
Qed.

(** [astroid --new-config] with the default configuration file present. *)
Lemma C9_new_config_refused_witness :
  fst (run (example_world true Primary []) (parsed vm_new)) = Exit 1%Z
  /\ core (trace (snd (run (example_world true Primary []) (parsed vm_new))))
     = []
  /\ forallb (fun e =>
                negb (touches_file (example_world true Primary [])
                        "/home/user/.config/astroid/config" e))
       (trace (snd (run (example_world true Primary []) (parsed vm_new))))
     = true.
Proof.
  destruct (C9_new_config_refused (example_world true Primary []) vm_new
              eq_refl eq_refl (or_introl eq_refl))
    as (st & msg & E & _ & C & _ & _ & T).
  rewrite E. split; [reflexivity|]. split; [exact C|].
  apply forallb_forall. intros e Hin. apply negb_true_iff.
  exact (T eq_refl e Hin).
Defined.

(** C10.  When the command line holds an option that is not declared, or
    [--help], the help text is printed and the process exits with status 0;
    nothing else happens: everything [main] does is print (no log file, no
    configuration, no registration, no subsystem, no window). *)
Theorem C10_help_exits_0 (w : World) (pr : ParseResult) :
  asks_for_help pr = true ->
  exists st,
    run w pr = (Exit 0%Z, st)
    /\ last (trace st) = Some cout_desc
    /\ Forall (fun e => e = cout_desc \/ exists s, e = cout s) (trace st)
    /\ logf_is_open st = false
    /\ m_config st = None
    /\ windows st = [].
Proof.
  intros Hp. destruct pr as [vm|what|]; cbn in Hp; [| |discriminate].
  - rewrite (run_help w vm Hp). eexists. split; [reflexivity|].
    split; [reflexivity|]. split; [|repeat split].
    constructor; [now left | constructor].
  - rewrite run_unknown_option. eexists. split; [reflexivity|].
    split; [reflexivity|]. split; [|repeat split].
    repeat (constructor; [eauto|]). constructor.
Qed.

(** [astroid --bogus]. *)
Lemma C10_help_exits_0_witness :
  asks_for_help (unknown_option "--bogus") = true
  /\ fst (run (example_world true Primary []) (unknown_option "--bogus"))
     = Exit 0%Z.
Proof.
  split; [reflexivity|].
  destruct (C10_help_exits_0 (example_world true Primary [])
              (unknown_option "--bogus") eq_refl) as (st & E & _).
  rewrite E. reflexivity.
Defined.

(** ** Populating windows *)

Lemma core_query_effects (mw : nat) (qpt : list (ustring * ustring)) :
  core (flat_map (query_effects mw) qpt) =
  map (fun kv => mw_add_mode mw (query_mode kv)) qpt.
Proof.
  induction qpt as [|kv qpt IH]; [reflexivity|].
  cbn. now rewrite <- IH.
Qed.

(** C7.  [open_new_window (true)], with the configuration loaded, makes a
    new window and calls on it, in this order: [add_mode] with a
    saved-searches mode flagged invincible if [show_on_startup] is set;
    [add_mode] with a thread-index mode flagged invincible for each entry
    of [startup.queries], in the order of the entries; then
    [set_active (0)]; then the window is handed to the application and
    shown.  With no start-up entry the window has no mode. *)
Theorem C7_default_window_population (c : Config) (st : Astroid) :
  m_config st = Some c ->
  exists st' tr,
    open_new_window true st = (Val (List.length (windows st)), st')
    /\ windows st' =
         windows st ++
         [{| modes :=
               (if show_on_startup c
                then [{| kind := new_SavedSearches; invincible := true |}]
                else []) ++
               map (fun kv => {| kind := new_ThreadIndex (snd kv) (fst kv);
                                 invincible := true |}) (startup_queries c);
             active := Some 0; shown := true |}]
    /\ trace st' = trace st ++ tr
    /\ core tr =
         (if show_on_startup c
          then [mw_add_mode (List.length (windows st))
                  {| kind := new_SavedSearches; invincible := true |}]
          else []) ++
         map (fun kv =>
                mw_add_mode (List.length (windows st))
                  {| kind := new_ThreadIndex (snd kv) (fst kv);
                     invincible := true |}) (startup_queries c) ++
         [mw_set_active (List.length (windows st)) 0;
          app_add_window (List.length (windows st));
          show_all (List.length (windows st))]
    /\ (show_on_startup c = false -> startup_queries c = [] ->
        windows st' =
          windows st ++ [{| modes := []; active := Some 0; shown := true |}]).
Proof.
  intros Hc. eexists _, _. split; [exact (open_new_window_true c st Hc)|].
  unfold with_wt. st_simpl. split; [reflexivity|]. split; [reflexivity|].
  split.
  - rewrite !core_app, core_query_effects.
    now destruct (show_on_startup c).
  - intros Hs Hq. unfold default_window, startup_modes. now rewrite Hs, Hq.
Qed.

(** The default window for the example configuration. *)
Lemma C7_default_window_population_witness :
  windows (snd (open_new_window true
                  (snd (set_m_config example_config astroid0))))
  = [{| modes :=
          [{| kind := new_SavedSearches; invincible := true |};
           {| kind := new_ThreadIndex "tag:inbox" "inbox"; invincible := true |};
           {| kind := new_ThreadIndex "tag:unread" "unread";
              invincible := true |}];
        active := Some 0; shown := true |}].
Proof.
  destruct (C7_default_window_population example_config
              (snd (set_m_config example_config astroid0)) eq_refl)
    as (st' & tr & E & W & _).
  rewrite E. exact W.
Defined.

(** A compose request carried out in the first instance, whether it
    comes from the process's own command line ([--mailto]) or from the
    forwarded [mailto] action, gives a window that holds exactly one mode,
    the compose mode addressed to what [send_mailto] extracts; the only call
    that adds a mode to the window is the one for the compose mode, and
    the window gets none of the start-up modes, whatever the configuration
    says. *)
Lemma compose_window_only (w : World) (vm : variables_map)
    (url : ustring) (n : Z) (st : Astroid) (primary : Astroid) :
  vm_mailto vm = Some url ->
  registration w = Primary ->
  run w (parsed vm) = (Val n, st) ->
  head (windows st) =
    Some {| modes := [{| kind := new_EditMessage (decode url);
                         invincible := false |}];
            active := None; shown := true |}
  /\ fst (on_mailto_activate url primary) = Val tt
  /\ windows (snd (on_mailto_activate url primary)) =
       windows primary ++
       [{| modes := [{| kind := new_EditMessage (decode url);
                        invincible := false |}];
           active := None; shown := true |}]
  /\ core (trace (snd (on_mailto_activate url primary))) =
       core (trace primary) ++
       [app_add_window (List.length (windows primary));
        show_all (List.length (windows primary));
        mw_add_mode (List.length (windows primary))
          {| kind := new_EditMessage (decode url); invincible := false |}].
Proof.
  intros Hm Hr Hrun. split.
  - destruct (run_primary_returns w _ n st Hr Hrun)
      as (vm' & [= <-] & Hh & Hn & Hc).
    destruct (run_primary w vm Hh Hn Hr Hc) as (st1 & E & _ & _ & _ & W).
    rewrite E in Hrun. injection Hrun as _ <-.
    rewrite W, Hm. reflexivity.
  - rewrite on_mailto_activate_window. split; [reflexivity|].
    split; [reflexivity|]. unfold with_wt. st_simpl.
    rewrite core_app. reflexivity.
Qed.

(** [astroid --mailto foo@bar.com] in the first instance. *)
Lemma compose_window_only_example :
  head (windows (snd (run (example_world false Primary [activate])
                        (parsed vm_mailto_foo))))
  = Some {| modes := [{| kind := new_EditMessage "foo@bar.com";
                         invincible := false |}];
            active := None; shown := true |}.
Proof.
  refine (proj1 (compose_window_only
                   (example_world false Primary [activate]) vm_mailto_foo
                   "foo@bar.com" 0%Z
                   (snd (run (example_world false Primary [activate])
                           (parsed vm_mailto_foo)))
                   astroid0 eq_refl eq_refl _)).
  vm_compute. reflexivity.
Defined.

(** C8 (the code departs from the specification).  A first instance
    started with [--mailto mailto:foo@bar.com], and a first instance that
    receives that text with the [mailto] action, each make a window that
    holds exactly one mode, a compose mode, and none of the start-up modes,
    as specified.  But the compose mode is addressed to [:foo@bar.com],
    while the recipient of the request, as the specification decodes it,
    is [foo@bar.com]: [send_mailto] leaves the colon that follows the
    scheme in front of the address (the defect shown for C1). *)
Theorem C8_compose_to_mailto_url_keeps_colon :
  head (windows (snd (run (example_world false Primary [activate])
                        (parsed vm_mailto_url)))) =
    Some {| modes := [{| kind := new_EditMessage ":foo@bar.com";
                         invincible := false |}];
            active := None; shown := true |}
  /\ windows (snd (on_mailto_activate "mailto:foo@bar.com"
                     (snd (set_m_config example_config astroid0)))) =
       [{| modes := [{| kind := new_EditMessage ":foo@bar.com";
                        invincible := false |}];
           active := None; shown := true |}]
  /\ spec_decode "mailto:foo@bar.com" = "foo@bar.com"
  /\ ":foo@bar.com" <> spec_decode "mailto:foo@bar.com".
Proof. vm_compute. repeat split; discriminate. Qed.

(** * Further properties *)

(** ** Closed forms *)

Lemma on_quit_exact (st : Astroid) :
  on_quit st =
  (Val tt,
   with_lt st false
     (trace st ++
      quit_effects (actions st) (plugin_manager st) (logf_is_open st))).
Proof.
  unfold on_quit, quit_effects.
  destruct st as [av cv ov pv acv wv tv]. st_simpl.
  do 2 mstep. destruct acv, pv, ov; repeat mstep.
  all: unfold log, emit, with_lt; st_simpl; rewrite <- !app_assoc; reflexivity.
Qed.

Lemma on_signal_activate_exact (c : Config) (st : Astroid) :
  m_config st = Some c ->
  on_signal_activate st =
  (Val tt,
   with_awt st true
     (windows st ++ loop_windows c (activated st) [activate])
     (trace st ++ loop_trace c (activated st) (List.length (windows st))
                    [activate])).
Proof.
  intros Hc. destruct (activated st) eqn:Ha.
  - unfold on_signal_activate.
    unfold bind at 1. unfold get at 1. rewrite Ha.
    rewrite (bind_Val _ _ _ _ _ (open_new_window_true c st Hc)).
    unfold ret, with_wt, with_awt, default_window_trace.
    cbn [loop_windows loop_trace]. rewrite Ha, app_nil_r. reflexivity.
  - rewrite (on_signal_activate_first st Ha). cbn. now rewrite !app_nil_r.
Qed.

Lemma app_run_exact (c : Config) (evs : list Event) (st : Astroid) :
  m_config st = Some c ->
  app_run evs st =
  (Val tt,
   with_awt st (loop_flag (activated st) evs)
     (windows st ++ loop_windows c (activated st) evs)
     (trace st ++ loop_trace c (activated st) (List.length (windows st)) evs)).
Proof.
  revert st. induction evs as [|ev evs IH]; intros st Hc.
  - cbn. rewrite !app_nil_r. now destruct st.
  - destruct ev as [|url]; cbn [app_run].
    + rewrite (bind_Val _ _ _ _ _ (on_signal_activate_exact c st Hc)).
      rewrite IH by exact Hc. unfold with_awt. st_simpl.
      destruct (activated st); cbn [loop_windows loop_trace loop_flag].
      * rewrite !length_app, <- !app_assoc. cbn [List.length app].
        rewrite Nat.add_1_r. reflexivity.
      * rewrite !app_nil_r. reflexivity.
    + rewrite (bind_Val _ _ _ _ _ (on_mailto_activate_window url st)).
      rewrite IH by exact Hc. unfold with_awt, with_wt. st_simpl.
      cbn [loop_windows loop_trace loop_flag].
      rewrite !length_app, <- !app_assoc. cbn [List.length app].
      rewrite Nat.add_1_r. reflexivity.
Qed.

(** The start of [main] up to the registration, when help is not shown
    and [--new-config] is not given. *)
Ltac main_to_registration Hh Hn :=
  unfold run, main, astroid0; cbn [parse_command_line];
  mstep; rewrite Hh; mstep;
  rewrite (bind_Val _ _ _ _ _ (open_log_file_exact _ _ _));
  unfold with_lt; st_simpl;
  unfold make_new_config; rewrite Hn; mstep.

(** The primary path in full. *)
Lemma run_primary_exact (w : World) (vm : variables_map) :
  vm_help vm = false -> vm_new_config vm = false ->
  registration w = Primary ->
  (vm_config vm = None \/ vm_test_config vm = false) ->
  run w (parsed vm) =
  (Val 0%Z,
   {| activated := loop_flag false (events w);
      m_config := Some (new_Config w (config_source vm));
      logf_is_open := false;
      plugin_manager := true;
      actions := true;
      windows :=
        match vm_mailto vm with
        | Some url => compose_window (decode url)
        | None => default_window (new_Config w (config_source vm))
        end :: loop_windows (new_Config w (config_source vm)) false (events w);
      trace := primary_trace w vm |}).
Proof.
  intros Hh Hn Hr Hc. main_to_registration Hh Hn.
  unfold primary_trace, log_file_effects, log_file_open, config_source.
  destruct (vm_no_auto_poll vm); mstep;
    destruct (vm_mailto vm) as [url|]; mstep.
  all: unfold register_application, is_remote; rewrite Hr; do 4 mstep.
  all: unfold load_config, init_subsystems, config.
  all: destruct (vm_config vm) as [cnf|], (vm_test_config vm);
    try (destruct Hc; discriminate).
  all: repeat mstep.
  all: rewrite ?bind_assoc.
  all: try match goal with
       | |- context [bind (open_new_window true) _ ?ST] =>
           rewrite (bind_Val _ _ _ _ _ (open_new_window_true _ ST eq_refl))
       end.
  all: try rewrite (bind_Val _ _ _ _ _ (open_new_window_false _)).
  all: try rewrite (bind_Val _ _ _ _ _ (send_mailto_decode _ _ _)).
  all: unfold with_wt; st_simpl.
  all: repeat mstep.
  all: match goal with
       | |- context [bind (app_run ?e) _ ?ST] =>
           rewrite (bind_Val _ _ _ _ _ (app_run_exact _ e ST eq_refl))
       end.
  all: unfold with_awt; st_simpl.
  all: rewrite (bind_Val _ _ _ _ _ (on_quit_exact _)).
  all: unfold with_lt, ret; st_simpl.
  all: unfold default_window_trace, compose_trace, quit_effects.
  all: rewrite <- ?app_assoc.
  all: destruct (vm_log vm) as [lfile|]; [destruct (logf_good w lfile)|].
  all: cbn [app alter list_alter List.length].
  all: reflexivity.
Qed.

(** The secondary path in full. *)
Lemma run_remote_exact (w : World) (vm : variables_map) :
  vm_help vm = false -> vm_new_config vm = false ->
  registration w = Remote ->
  run w (parsed vm) =
  (Val 0%Z,
   {| activated := false; m_config := None;
      logf_is_open := log_file_open w vm;
      plugin_manager := false; actions := false; windows := [];
      trace := secondary_trace w vm |}).
Proof.
  intros Hh Hn Hr. main_to_registration Hh Hn.
  unfold secondary_trace, log_file_effects, log_file_open, forwarded.
  destruct (vm_no_auto_poll vm); mstep;
    destruct (vm_mailto vm) as [url|]; mstep.
  all: unfold register_application, is_remote; rewrite Hr; repeat mstep.
  all: unfold ret; rewrite <- ?app_assoc.
  all: destruct (vm_log vm) as [lfile|]; [destruct (logf_good w lfile)|].
  all: reflexivity.
Qed.

(** ** Projections of the closed forms *)

Lemma logf_events_app (t1 t2 : list effect) :
  logf_events (t1 ++ t2) = logf_events t1 ++ logf_events t2.
Proof. apply List.filter_app. Qed.

Lemma core_default_window_trace (c : Config) (mw : nat) :
  core (default_window_trace c mw) =
  (if show_on_startup c
   then [mw_add_mode mw {| kind := new_SavedSearches; invincible := true |}]
   else []) ++
  map (fun kv => mw_add_mode mw (query_mode kv)) (startup_queries c) ++
  [mw_set_active mw 0; app_add_window mw; show_all mw].
Proof.
  unfold default_window_trace. rewrite !core_app, core_query_effects.
  now destruct (show_on_startup c).
Qed.

Lemma window_calls_default_window_trace (c : Config) (mw : nat) :
  forallb is_window_call (core (default_window_trace c mw)) = true.
Proof.
  rewrite core_default_window_trace, !forallb_app.
  assert (H : forallb is_window_call
                (map (fun kv => mw_add_mode mw (query_mode kv))
                   (startup_queries c)) = true)
    by (induction (startup_queries c); [reflexivity | assumption]).
  rewrite H. now destruct (show_on_startup c).
Qed.

Lemma logf_events_query_effects (mw : nat) (qpt : list (ustring * ustring)) :
  logf_events (flat_map (query_effects mw) qpt) = [].
Proof. induction qpt as [|kv qpt IH]; [reflexivity | exact IH]. Qed.

Lemma logf_events_default_window_trace (c : Config) (mw : nat) :
  logf_events (default_window_trace c mw) = [].
Proof.
  unfold default_window_trace.
  rewrite !logf_events_app, logf_events_query_effects.
  now destruct (show_on_startup c).
Qed.

Lemma window_calls_loop_trace (c : Config) (evs : list Event) :
  forall a mw, forallb is_window_call (core (loop_trace c a mw evs)) = true.
Proof.
  induction evs as [|ev evs IH]; intros a mw; [reflexivity|].
  destruct ev as [|url]; cbn [loop_trace].
  - destruct a; [|apply IH].
    now rewrite core_app, forallb_app, window_calls_default_window_trace, IH.
  - rewrite core_app, forallb_app, IH. reflexivity.
Qed.

Lemma logf_events_loop_trace (c : Config) (evs : list Event) :
  forall a mw, logf_events (loop_trace c a mw evs) = [].
Proof.
  induction evs as [|ev evs IH]; intros a mw; [reflexivity|].
  destruct ev as [|url]; cbn [loop_trace].
  - destruct a; [|apply IH].
    now rewrite logf_events_app, logf_events_default_window_trace, IH.
  - rewrite logf_events_app, IH. reflexivity.
Qed.

Lemma core_quit_effects (a p o : bool) :
  core (quit_effects a p o) =
  (if a then [teardown ActionManager] else []) ++
  [teardown SavedSearches] ++
  (if p then [teardown PluginManager] else []).
Proof. now destruct a, p, o. Qed.

(** The primary path without what is logged. *)
Lemma core_primary_trace (w : World) (vm : variables_map) :
  core (primary_trace w vm) =
  [app_created "org.astroid"; app_registered; connect_activate;
   add_action "mailto"; config_loaded (config_source vm);
   init Date []; init Utils []; init Db []; init Keybindings [];
   init SavedSearches []; init AccountManager [];
   init PluginManager [vm_disable_plugins vm;
                       test (new_Config w (config_source vm))];
   init ActionManager []; init Poll [negb (vm_no_auto_poll vm)]] ++
  (core match vm_mailto vm with
        | Some url => compose_trace url 0
        | None => default_window_trace (new_Config w (config_source vm)) 0
        end ++
   core (loop_trace (new_Config w (config_source vm)) false 1 (events w))) ++
  [teardown ActionManager; teardown SavedSearches; teardown PluginManager].
Proof.
  unfold primary_trace. cbv zeta.
  rewrite !core_app, core_log_file_effects, core_quit_effects.
  destruct (vm_no_auto_poll vm), (vm_mailto vm), (vm_config vm); cbn [core List.filter is_logging negb app];
    rewrite <- ?app_assoc; reflexivity.
Qed.

(** ** The result of [main] *)


(** X2.  [--log] and [--append-log], and whether the log file can be
    opened, change only what is logged, provided the log file changes
    nothing that [main] reads afterwards.  Take a run with these options
    and a run without them in which the registration is answered alike,
    the same requests arrive, the same configuration gets loaded, and the
    [--new-config] target is found present or absent alike: the two runs
    have the same result, make the same calls apart from printing and
    logging, and leave the same windows. *)
Theorem log_options_change_only_logging (w w' : World)
    (vm : variables_map) :
  registration w' = registration w ->
  events w' = events w ->
  default_config_file w' = default_config_file w ->
  new_Config w' (config_source vm) = new_Config w (config_source vm) ->
  exists_ w' (new_config_target w vm)
  = file_exists w vm (new_config_target w vm) ->
  fst (run w (parsed vm)) = fst (run w' (parsed (without_log vm)))
  /\ core (trace (snd (run w (parsed vm))))
     = core (trace (snd (run w' (parsed (without_log vm)))))
  /\ windows (snd (run w (parsed vm)))
     = windows (snd (run w' (parsed (without_log vm)))).
Proof.
  intros Hreg Hev Hd Hcfg He.
  assert (T' : new_config_target w' (without_log vm) = new_config_target w vm).
  { unfold new_config_target. cbn [vm_config without_log].
    now destruct (vm_config vm). }
  assert (F' : file_exists w' (without_log vm)
                 (new_config_target w' (without_log vm))
               = file_exists w vm (new_config_target w vm)).
  { rewrite T'. unfold file_exists at 1, log_touches.
    cbn [vm_log without_log]. now rewrite orb_false_r. }
  destruct (vm_help vm) eqn:Hh.
  { rewrite (run_help w vm Hh), (run_help w' (without_log vm) Hh). auto. }
  destruct (vm_new_config vm) eqn:Hn.
  - destruct (vm_test_config vm) eqn:Ht.
    + destruct (run_new_config_refused w vm Hh Hn (or_introl Ht))
        as (st & msg & E & C & _ & W & _).
      destruct (run_new_config_refused w' (without_log vm) Hh Hn
                  (or_introl Ht)) as (st' & msg' & E' & C' & _ & W' & _).
      rewrite E, E'. cbn [fst snd]. now rewrite C, C', W, W'.
    + destruct (file_exists w vm (new_config_target w vm)) eqn:Hx.
      * destruct (run_new_config_refused w vm Hh Hn (or_intror Hx))
          as (st & msg & E & C & _ & W & _).
        destruct (run_new_config_refused w' (without_log vm) Hh Hn
                    (or_intror F')) as (st' & msg' & E' & C' & _ & W' & _).
        rewrite E, E'. cbn [fst snd]. now rewrite C, C', W, W'.
      * destruct (run_new_config_written w vm Hh Hn Ht Hx)
          as (st & E & C & W & _).
        destruct (run_new_config_written w' (without_log vm) Hh Hn Ht F')
          as (st' & E' & C' & W' & _).
        rewrite E, E'. cbn [fst snd]. now rewrite C, C', W, W', T'.
  - destruct (registration w) eqn:Hr.
    + destruct (vm_config vm) as [cnf|] eqn:Hc;
        [destruct (vm_test_config vm) eqn:Ht|].
      * destruct (run_primary_config_conflict w vm cnf Hh Hn Hr Hc Ht)
          as (st & E & C & _ & W).
        destruct (run_primary_config_conflict w' (without_log vm) cnf Hh Hn
                    Hreg Hc Ht) as (st' & E' & C' & _ & W').
        rewrite E, E'. cbn [fst snd]. now rewrite C, C', W, W'.
      * rewrite (run_primary_exact w vm Hh Hn Hr (or_intror Ht)).
        rewrite (run_primary_exact w' (without_log vm) Hh Hn Hreg
                   (or_intror Ht)).
        cbn [fst snd trace windows]. rewrite !core_primary_trace.
        change (config_source (without_log vm)) with (config_source vm).
        rewrite Hcfg, Hev. auto.
      * rewrite (run_primary_exact w vm Hh Hn Hr (or_introl Hc)).
        rewrite (run_primary_exact w' (without_log vm) Hh Hn Hreg
                   (or_introl Hc)).
        cbn [fst snd trace windows]. rewrite !core_primary_trace.
        change (config_source (without_log vm)) with (config_source vm).
        rewrite Hcfg, Hev. auto.
    + destruct (run_remote w vm Hh Hn Hr) as (st & E & C & W).
      destruct (run_remote w' (without_log vm) Hh Hn Hreg)
        as (st' & E' & C' & W').
      rewrite E, E'. cbn [fst snd]. now rewrite C, C', W, W'.
    + destruct (run_registration_failed w vm Hh Hn Hr) as (st & E & C & _ & W).
      destruct (run_registration_failed w' (without_log vm) Hh Hn Hreg)
        as (st' & E' & C' & _ & W').
      rewrite E, E'. cbn [fst snd]. now rewrite C, C', W, W'.
Qed.

(** A run that logs to a file of its own, against the run without. *)
Lemma log_options_change_only_logging_witness :
  fst (run (example_world false Primary [activate]) (parsed vm_log_append))
  = fst (run (example_world false Primary [activate]) (parsed vm_empty))
  /\ windows (snd (run (example_world false Primary [activate])
                     (parsed vm_log_append)))
     = windows (snd (run (example_world false Primary [activate])
                       (parsed vm_empty))).
Proof.
  destruct (log_options_change_only_logging
              (example_world false Primary [activate])
              (example_world false Primary [activate]) vm_log_append
              eq_refl eq_refl eq_refl eq_refl eq_refl) as (R & _ & W).
  split; [exact R | exact W].
Defined.

(** ** The log file *)

Lemma logf_events_log_file_effects (w : World) (vm : variables_map) :
  logf_events (log_file_effects w vm) =
  match vm_log vm with
  | Some lfile =>
      logf_opened lfile (vm_append_log vm) ::
      (if logf_good w lfile then [log_add_logf] else [])
  | None => []
  end.
Proof.
  unfold log_file_effects. destruct (vm_log vm) as [lfile|]; [|reflexivity].
  now destruct (logf_good w lfile).
Qed.

Lemma logf_events_primary_trace (w : World) (vm : variables_map) :
  logf_events (primary_trace w vm) =
  match vm_log vm with
  | Some lfile =>
      if logf_good w lfile
      then [logf_opened lfile (vm_append_log vm); log_add_logf;
            log_del_logf; logf_closed]
      else [logf_opened lfile (vm_append_log vm)]
  | None => []
  end.
Proof.
  unfold primary_trace, log_file_open. cbv zeta.
  rewrite !logf_events_app, logf_events_log_file_effects,
    logf_events_loop_trace.
  assert (Hw : logf_events
                 match vm_mailto vm with
                 | Some url => compose_trace url 0
                 | None =>
                     default_window_trace (new_Config w (config_source vm)) 0
                 end = []).
  { destruct (vm_mailto vm); [reflexivity|].
    apply logf_events_default_window_trace. }
  rewrite Hw.
  destruct (vm_no_auto_poll vm), (vm_mailto vm), (vm_config vm),
    (vm_log vm) as [lfile|]; try destruct (logf_good w lfile); reflexivity.
Qed.

(** X3.  On the primary path the log file named by [--log] is opened once,
    in the mode chosen by [--append-log]; if it could be opened, it is
    attached to the log at once, and detached and closed in [on_quit]; if
    it could not, it is neither attached nor closed.  When [main] returns
    the log file is not open. *)
Theorem log_file_lifecycle (w : World) (vm : variables_map) :
  vm_help vm = false -> vm_new_config vm = false ->
  registration w = Primary ->
  (vm_config vm = None \/ vm_test_config vm = false) ->
  exists st,
    run w (parsed vm) = (Val 0%Z, st)
    /\ logf_is_open st = false
    /\ logf_events (trace st) =
         match vm_log vm with
         | Some lfile =>
             if logf_good w lfile
             then [logf_opened lfile (vm_append_log vm); log_add_logf;
                   log_del_logf; logf_closed]
             else [logf_opened lfile (vm_append_log vm)]
         | None => []
         end.
Proof.
  intros Hh Hn Hr Hc. eexists. split; [exact (run_primary_exact w vm Hh Hn Hr Hc)|].
  cbn [logf_is_open trace]. split; [reflexivity|].
  apply logf_events_primary_trace.
Qed.

(** A primary run that logs to a file. *)
Lemma log_file_lifecycle_witness :
  logf_events (trace (snd (run (example_world false Primary [activate])
                             (parsed vm_log_append))))
  = [logf_opened "/tmp/astroid.log" true; log_add_logf; log_del_logf;
     logf_closed].
Proof.
  destruct (log_file_lifecycle (example_world false Primary [activate])
              vm_log_append eq_refl eq_refl eq_refl (or_introl eq_refl))
    as (st & E & _ & L).
  rewrite E. exact L.
Defined.

(** X4.  On the secondary path the log file that was opened stays open:
    [main] returns without detaching or closing it. *)
Theorem secondary_leaves_log_file_open (w : World) (vm : variables_map)
    (lfile : ustring) :
  vm_help vm = false -> vm_new_config vm = false ->
  registration w = Remote ->
  vm_log vm = Some lfile -> logf_good w lfile = true ->
  exists st,
    run w (parsed vm) = (Val 0%Z, st)
    /\ logf_is_open st = true
    /\ logf_events (trace st) =
         [logf_opened lfile (vm_append_log vm); log_add_logf].
Proof.
  intros Hh Hn Hr Hl Hg. eexists.
  split; [exact (run_remote_exact w vm Hh Hn Hr)|].
  cbn [logf_is_open trace]. unfold log_file_open, secondary_trace, forwarded.
  rewrite !logf_events_app, logf_events_log_file_effects, Hl, Hg.
  split; [reflexivity|].
  destruct (vm_no_auto_poll vm), (vm_mailto vm); reflexivity.
Qed.

Lemma secondary_leaves_log_file_open_witness :
  logf_is_open (snd (run (example_world false Remote []) (parsed vm_log_append)))
  = true.
Proof.
  destruct (secondary_leaves_log_file_open (example_world false Remote [])
              vm_log_append "/tmp/astroid.log" eq_refl eq_refl eq_refl
              eq_refl eq_refl) as (st & E & O & _).
  rewrite E. exact O.
Defined.

(** ** The other paths of [main] *)

(** X5.  [--new-config] when help is not shown, [--test-config] is not
    given, the target file (the path of [--config], the default path
    otherwise) does not exist when the process starts and is not the log
    file the process has just opened: the default configuration is written
    to the target and the process exits with status 0; nothing else is
    done: the application is not created, nothing is registered, no
    configuration is loaded and no window opened. *)
Theorem new_config_written (w : World) (vm : variables_map) :
  vm_help vm = false -> vm_new_config vm = true ->
  vm_test_config vm = false ->
  exists_ w (new_config_target w vm) = false ->
  log_touches w vm (new_config_target w vm) = false ->
  exists st,
    run w (parsed vm) = (Exit 0%Z, st)
    /\ core (trace st) = [config_written (new_config_target w vm)]
    /\ m_config st = None
    /\ windows st = [].
Proof.
  intros Hh Hn Ht Hx Hl.
  destruct (run_new_config_written w vm Hh Hn Ht) as (st & E & C & W & M).
  { unfold file_exists. now rewrite Hx, Hl. }
  exists st. repeat split; assumption.
Qed.

Lemma new_config_written_witness :
  fst (run (example_world false Primary []) (parsed vm_new)) = Exit 0%Z
  /\ core (trace (snd (run (example_world false Primary []) (parsed vm_new))))
     = [config_written "/home/user/.config/astroid/config"].
Proof.
  destruct (new_config_written (example_world false Primary []) vm_new
              eq_refl eq_refl eq_refl eq_refl eq_refl) as (st & E & C & _).
  rewrite E. split; [reflexivity | exact C].
Defined.

(** X6.  The secondary path, whatever else is on the command line:
    the application is created and registered, then one request is
    forwarded (the action [mailto] with the text of [--mailto], or a plain
    activation) and [main] returns 0.  No configuration is loaded (so
    [--config] with [--test-config] goes unnoticed), no subsystem is set
    up, no window opened.  The warning about [--no-auto-poll] is logged
    exactly when that option was given. *)
Theorem secondary_forwards_one_request (w : World) (vm : variables_map) :
  vm_help vm = false -> vm_new_config vm = false ->
  registration w = Remote ->
  exists st,
    run w (parsed vm) = (Val 0%Z, st)
    /\ core (trace st) =
         [app_created "org.astroid"; app_registered;
          match vm_mailto vm with
          | Some url => app_activate_action "mailto" url
          | None => app_activate
          end]
    /\ m_config st = None
    /\ windows st = []
    /\ (In (log_line warn
              "astroid: specifying no-auto-poll only makes sense when starting a new astroid instance, ignoring.")
           (trace st)
        <-> vm_no_auto_poll vm = true).
Proof.
  intros Hh Hn Hr. eexists.
  split; [exact (run_remote_exact w vm Hh Hn Hr)|].
  cbn [trace m_config windows].
  split.
  { destruct (run_remote w vm Hh Hn Hr) as (st & E & C & _).
    rewrite (run_remote_exact w vm Hh Hn Hr) in E. injection E as <-.
    exact C. }
  split; [reflexivity|]. split; [reflexivity|].
  unfold secondary_trace, log_file_effects, forwarded.
  rewrite !in_app_iff.
  destruct (vm_no_auto_poll vm), (vm_mailto vm) as [url|],
    (vm_log vm) as [lfile|]; try destruct (logf_good w lfile);
    cbn [In]; split; intros H; try reflexivity.
  all: try (repeat match goal with
                   | H : _ \/ _ |- _ => destruct H
                   | H : False |- _ => destruct H
                   | H : _ = _ |- _ => discriminate H
                   end; fail).
  all: do 4 right; left; left; reflexivity.
Qed.

Lemma secondary_forwards_one_request_witness :
  fst (run (example_world false Remote []) (parsed vm_no_auto_poll_conflict))
  = Val 0%Z
  /\ core (trace (snd (run (example_world false Remote [])
                         (parsed vm_no_auto_poll_conflict))))
     = [app_created "org.astroid"; app_registered; app_activate].
Proof.
  destruct (secondary_forwards_one_request (example_world false Remote [])
              vm_no_auto_poll_conflict eq_refl eq_refl eq_refl)
    as (st & E & C & _).
  rewrite E. split; [reflexivity | exact C].
Defined.

(** ** The primary path *)

(** X7.  The primary path, apart from printing and logging, is always the
    same sequence: the application is created and registered, the
    activation handler is connected and the [mailto] action added, the
    configuration chosen by the command line is loaded, the nine subsystems
    are set up (the plugin manager with [--disable-plugins] and the test
    flag of the configuration, the poller with auto-poll on unless
    [--no-auto-poll]), then come calls on windows only, and last the three
    tear-down calls.  Nothing is set up twice, and no window call comes
    before the set-up is complete or after the tear-down has begun. *)
Theorem primary_bootstrap_sequence (w : World) (vm : variables_map) :
  vm_help vm = false -> vm_new_config vm = false ->
  registration w = Primary ->
  (vm_config vm = None \/ vm_test_config vm = false) ->
  exists st window_calls,
    run w (parsed vm) = (Val 0%Z, st)
    /\ m_config st = Some (new_Config w (config_source vm))
    /\ core (trace st) =
         [app_created "org.astroid"; app_registered; connect_activate;
          add_action "mailto"; config_loaded (config_source vm);
          init Date []; init Utils []; init Db []; init Keybindings [];
          init SavedSearches []; init AccountManager [];
          init PluginManager [vm_disable_plugins vm;
                              test (new_Config w (config_source vm))];
          init ActionManager []; init Poll [negb (vm_no_auto_poll vm)]] ++
         window_calls ++
         [teardown ActionManager; teardown SavedSearches;
          teardown PluginManager]
    /\ forallb is_window_call window_calls = true.
Proof.
  intros Hh Hn Hr Hc. eexists _, _.
  split; [exact (run_primary_exact w vm Hh Hn Hr Hc)|].
  cbn [m_config trace]. split; [reflexivity|].
  split; [apply core_primary_trace|].
  rewrite forallb_app, window_calls_loop_trace.
  destruct (vm_mailto vm) as [url|]; [reflexivity|].
  now rewrite window_calls_default_window_trace.
Qed.

Lemma primary_bootstrap_sequence_witness :
  firstn 14 (core (trace (snd (run (example_world false Primary [activate])
                                 (parsed vm_quiet_test)))))
  = [app_created "org.astroid"; app_registered; connect_activate;
     add_action "mailto"; config_loaded config_test;
     init Date []; init Utils []; init Db []; init Keybindings [];
     init SavedSearches []; init AccountManager [];
     init PluginManager [true; false];
     init ActionManager []; init Poll [false]].
Proof.
  destruct (primary_bootstrap_sequence (example_world false Primary [activate])
              vm_quiet_test eq_refl eq_refl eq_refl (or_introl eq_refl))
    as (st & wc & E & _ & C & _).
  rewrite E. cbn [snd]. rewrite C. reflexivity.
Defined.

Lemma loop_windows_true (c : Config) (evs : list Event) :
  loop_windows c true evs = map (window_of c) evs.
Proof.
  induction evs as [|[|url] evs IH]; cbn; [reflexivity| |]; now rewrite IH.
Qed.

Lemma loop_windows_false (c : Config) (evs : list Event) :
  loop_windows c false evs = map (window_of c) (drop_first_activate evs).
Proof.
  induction evs as [|[|url] evs IH]; cbn; [reflexivity| |].
  - apply loop_windows_true.
  - now rewrite IH.
Qed.

Lemma loop_flag_existsb (a : bool) (evs : list Event) :
  loop_flag a evs = a || existsb is_activate evs.
Proof.
  revert a. induction evs as [|[|url] evs IH]; intros a; cbn.
  - now rewrite orb_false_r.
  - rewrite IH. now rewrite orb_true_r.
  - apply IH.
Qed.

(** X8.  The windows of the first instance when [main] returns: first the
    process's own window (the compose window for [--mailto], the default
    window otherwise), then one window for each request the loop served,
    in arrival order, except for the first activation, which opens none.
    In particular a first instance started with [--mailto] whose only
    request is its own activation shows the compose window and nothing
    else. *)
Theorem primary_windows (w : World) (vm : variables_map) :
  vm_help vm = false -> vm_new_config vm = false ->
  registration w = Primary ->
  (vm_config vm = None \/ vm_test_config vm = false) ->
  exists st,
    run w (parsed vm) = (Val 0%Z, st)
    /\ windows st =
         match vm_mailto vm with
         | Some url => compose_window (decode url)
         | None => default_window (new_Config w (config_source vm))
         end ::
         map (window_of (new_Config w (config_source vm)))
           (drop_first_activate (events w))
    /\ (events w = [activate] ->
        forall url, vm_mailto vm = Some url ->
        windows st = [compose_window (decode url)]).
Proof.
  intros Hh Hn Hr Hc. eexists.
  split; [exact (run_primary_exact w vm Hh Hn Hr Hc)|].
  cbn [windows]. rewrite loop_windows_false. split; [reflexivity|].
  intros -> url ->. reflexivity.
Qed.

Lemma primary_windows_witness :
  windows (snd (run (example_world false Primary
                       [mailto_action "a@b.c"; activate; activate])
                  (parsed vm_mailto_foo)))
  = [compose_window "foo@bar.com"; compose_window "a@b.c";
     default_window example_config].
Proof.
  destruct (primary_windows (example_world false Primary
                               [mailto_action "a@b.c"; activate; activate])
              vm_mailto_foo eq_refl eq_refl eq_refl (or_introl eq_refl))
    as (st & E & W & _).
  rewrite E. exact W.
Defined.

(** ** The main loop *)

(** X9.  The loop, once the configuration is loaded, never fails and opens
    windows only at the end of the store, leaving the windows that exist
    untouched: one window per request, in arrival order, the default window
    for an activation and the compose window for a [mailto] action; only
    the first activation, if the flag is still clear, opens none.  Requests
    are neither merged nor reordered. *)
Theorem app_run_one_window_per_request (c : Config) (evs : list Event)
    (st : Astroid) :
  m_config st = Some c ->
  exists st',
    app_run evs st = (Val tt, st')
    /\ windows st' =
         windows st ++
         map (window_of c)
           (if activated st then evs else drop_first_activate evs)
    /\ (activated st = true ->
        List.length (windows st') =
          List.length (windows st) + List.length evs).
Proof.
  intros Hc. eexists. split; [exact (app_run_exact c evs st Hc)|].
  unfold with_awt. cbn [windows]. split.
  - destruct (activated st); [now rewrite loop_windows_true|].
    now rewrite loop_windows_false.
  - intros ->. rewrite loop_windows_true, length_app, length_map.
    reflexivity.
Qed.

Lemma app_run_one_window_per_request_witness :
  windows (snd (app_run [activate; mailto_action "a@b.c"; activate]
                  (snd (set_m_config example_config astroid0))))
  = [compose_window "a@b.c"; default_window example_config].
Proof.
  destruct (app_run_one_window_per_request example_config
              [activate; mailto_action "a@b.c"; activate]
              (snd (set_m_config example_config astroid0)) eq_refl)
    as (st' & E & W & _).
  rewrite E. exact W.
Defined.

(** X10.  The activation flag is a latch: the loop sets it at the first
    activation and nothing clears it; requests for the [mailto] action
    leave it alone.  The loop changes nothing else of the application
    object but the windows and the trace: the configuration, the log file
    and the subsystem objects are as before. *)
Theorem app_run_flag_is_a_latch (c : Config) (evs : list Event)
    (st : Astroid) :
  m_config st = Some c ->
  exists st',
    app_run evs st = (Val tt, st')
    /\ activated st' = activated st || existsb is_activate evs
    /\ (activated st = true -> activated st' = true)
    /\ m_config st' = m_config st
    /\ logf_is_open st' = logf_is_open st
    /\ plugin_manager st' = plugin_manager st
    /\ actions st' = actions st.
Proof.
  intros Hc. eexists. split; [exact (app_run_exact c evs st Hc)|].
  unfold with_awt.
  cbn [activated m_config logf_is_open plugin_manager actions].
  rewrite loop_flag_existsb. repeat split. now intros ->.
Qed.

Lemma app_run_flag_is_a_latch_witness :
  activated (snd (app_run [mailto_action "a@b.c"]
                    (snd (set_m_config example_config astroid0)))) = false
  /\ activated (snd (app_run [mailto_action "a@b.c"; activate]
                       (snd (set_m_config example_config astroid0)))) = true.
Proof.
  split.
  - destruct (app_run_flag_is_a_latch example_config [mailto_action "a@b.c"]
                (snd (set_m_config example_config astroid0)) eq_refl)
      as (st' & E & A & _).
    rewrite E. exact A.
  - destruct (app_run_flag_is_a_latch example_config
                [mailto_action "a@b.c"; activate]
                (snd (set_m_config example_config astroid0)) eq_refl)
      as (st' & E & A & _).
    rewrite E. exact A.
Defined.

(** ** More on the mailto decoder *)

Lemma append_String (c : ascii) (s1 s2 : string) :
  (String c s1 ++ s2)%string = String c (s1 ++ s2).
Proof. reflexivity. Qed.

Lemma length_append (s1 s2 : string) :
  String.length (s1 ++ s2) = String.length s1 + String.length s2.
Proof. induction s1 as [|c s1 IH]; simpl; [reflexivity | now rewrite IH]. Qed.

Lemma substring_append_l (s1 s2 : string) :
  substring 0 (String.length s1) (s1 ++ s2) = s1.
Proof. induction s1 as [|c s1 IH]; simpl; [now destruct s2 | now rewrite IH]. Qed.

Lemma substring_append_r (s1 s2 : string) :
  substring (String.length s1)
    (String.length (s1 ++ s2) - String.length s1) (s1 ++ s2) = s2.
Proof.
  induction s1 as [|c s1 IH]; simpl.
  - rewrite Nat.sub_0_r. apply substring_0_length.
  - exact IH.
Qed.

(** The scan stops at a colon: the text is the scanned part, the colon
    and a rest. *)
Lemma scheme_scan_split (s : string) (n : nat) :
  Glib.scheme_scan s = Some n ->
  exists p rest, s = (p ++ String ":" rest)%string /\ String.length p = n.
Proof.
  revert n. induction s as [|c s IH]; intros n H; [discriminate|].
  cbn [Glib.scheme_scan] in H.
  destruct (Ascii.eqb_spec c ":") as [->|Hc].
  - injection H as <-. now exists EmptyString, s.
  - destruct (Glib.g_ascii_isalnum c || Ascii.eqb c "+" || Ascii.eqb c "-"
              || Ascii.eqb c "."); [|discriminate].
    destruct (Glib.scheme_scan s) as [m|]; [|discriminate].
    injection H as <-. destruct (IH m eq_refl) as (p & rest & -> & <-).
    now exists (String c p), rest.
Qed.

Lemma scheme_scan_append (s x : string) (n : nat) :
  Glib.scheme_scan s = Some n -> Glib.scheme_scan (s ++ x) = Some n.
Proof.
  revert n. induction s as [|c s IH]; intros n H; [discriminate|].
  rewrite append_String. cbn [Glib.scheme_scan] in *.
  destruct (Ascii.eqb c ":"); [exact H|].
  destruct (Glib.g_ascii_isalnum c || Ascii.eqb c "+" || Ascii.eqb c "-"
            || Ascii.eqb c "."); [|discriminate].
  destruct (Glib.scheme_scan s) as [m|]; [|discriminate].
  now rewrite (IH m eq_refl).
Qed.

Lemma isalpha_not_colon (c : ascii) :
  Glib.g_ascii_isalpha c = true -> Ascii.eqb c ":" = false.
Proof.
  intros H. destruct (Ascii.eqb_spec c ":") as [->|]; [discriminate | reflexivity].
Qed.

(** A text with a scheme is the scheme, a colon and a rest; the recipient
    computed for it is the colon and the rest up to its first ['?']. *)
Lemma decode_with_scheme (raw s : ustring) :
  Glib.g_uri_parse_scheme raw = Some s ->
  exists rest,
    raw = (s ++ String ":" rest)%string
    /\ s <> EmptyString
    /\ decode raw = String ":" (up_to_query rest).
Proof.
  intros H. unfold Glib.g_uri_parse_scheme in H.
  destruct raw as [|c r]; [discriminate|].
  destruct (Glib.g_ascii_isalpha c) eqn:Ha; [|discriminate].
  destruct (Glib.scheme_scan (String c r)) as [n|] eqn:Hs; [|discriminate].
  assert (Hsub : s = substring 0 n (String c r)) by congruence.
  clear H. subst s.
  destruct (scheme_scan_split _ _ Hs) as (p & rest & E & Hn).
  assert (Hp : p <> EmptyString).
  { intros ->. change (EmptyString ++ ?x)%string with x in E.
    injection E as -> _. discriminate. }
  exists rest. rewrite E, <- Hn, substring_append_l.
  split; [reflexivity|]. split; [exact Hp|].
  unfold decode, Glib.uri_parse_scheme, Glib.g_uri_parse_scheme.
  rewrite <- E, Ha, Hs, E, <- Hn, substring_append_l.
  destruct p as [|c' p]; [congruence|]. cbn [String.length Nat.ltb Nat.leb].
  change (S (String.length p)) with (String.length (String c' p)).
  rewrite substring_append_r.
  unfold up_to_query, find. cbn [index String.prefix].
  destruct (ascii_dec "?" ":") as [Hq|_]; [discriminate|].
  destruct (index 0 "?" rest) as [q|]; [reflexivity|].
  cbn. now rewrite substring_0_length.
Qed.

Lemma index_colon_append (p rest : string) :
  index 0 ":" (p ++ String ":" rest) <> None.
Proof.
  induction p as [|c p IH];
    [change (EmptyString ++ String ":" rest)%string with (String ":" rest)
    | rewrite append_String]; cbn [index String.prefix].
  - destruct (ascii_dec ":" ":") as [_|N]; [destruct rest; discriminate | congruence].
  - destruct (ascii_dec ":" c); [destruct (p ++ String ":" rest)%string; discriminate|].
    destruct (index 0 ":" (p ++ String ":" rest)); [discriminate | congruence].
Qed.

(** X11.  A text without a colon is taken as the recipient as it stands,
    a ['?'] and what follows it included: the query is cut off only from a
    text that has a scheme. *)
Theorem decode_without_colon (raw : ustring) :
  find raw ":" = None -> decode raw = raw.
Proof.
  intros H. apply decode_no_scheme. unfold Glib.uri_parse_scheme.
  destruct (Glib.g_uri_parse_scheme raw) as [s|] eqn:Hs; [|reflexivity].
  destruct (decode_with_scheme raw s Hs) as (rest & -> & _).
  now destruct (index_colon_append s rest).
Qed.

Lemma decode_without_colon_witness :
  decode "foo@bar.com?subject=hello" = "foo@bar.com?subject=hello".
Proof. apply (decode_without_colon "foo@bar.com?subject=hello"). reflexivity. Defined.

Lemma index_query_prefix (s : string) (p : nat) :
  index 0 "?" s = Some p -> index 0 "?" (substring 0 p s) = None.
Proof.
  revert p. induction s as [|c s IH]; intros p H; [discriminate|].
  cbn [index String.prefix] in H.
  destruct (ascii_dec "?" c) as [->|Hc].
  - destruct s; injection H as <-; reflexivity.
  - destruct (index 0 "?" s) as [q|]; [|discriminate]. injection H as <-.
    cbn [substring index String.prefix].
    destruct (ascii_dec "?" c) as [|_]; [contradiction|].
    now rewrite (IH q eq_refl).
Qed.

(** X12.  The recipient computed for a text that has a scheme never
    contains a ['?']: the query part, whatever it holds, is left out. *)
Theorem decode_drops_query (raw : ustring) :
  Glib.uri_parse_scheme raw <> EmptyString ->
  find (decode raw) "?" = None.
Proof.
  intros H. unfold Glib.uri_parse_scheme in H.
  destruct (Glib.g_uri_parse_scheme raw) as [s|] eqn:Hs; [|congruence].
  destruct (decode_with_scheme raw s Hs) as (rest & _ & _ & ->).
  unfold find, up_to_query, find. cbn [index String.prefix].
  destruct (ascii_dec "?" ":") as [Hq|_]; [discriminate|].
  destruct (index 0 "?" rest) as [q|] eqn:Hq.
  - now rewrite (index_query_prefix rest q Hq).
  - now rewrite Hq.
Qed.

Lemma decode_drops_query_witness :
  find (decode "mailto:foo@bar.com?subject=hello?x") "?" = None.
Proof.
  apply (decode_drops_query "mailto:foo@bar.com?subject=hello?x").
  discriminate.
Defined.

Lemma index_query_append (s q : string) :
  index 0 "?" s = None ->
  index 0 "?" (s ++ String "?" q) = Some (String.length s).
Proof.
  induction s as [|c s IH]; intros H;
    [change (EmptyString ++ String "?" q)%string with (String "?" q)
    | rewrite append_String]; cbn [index String.prefix String.length].
  - destruct (ascii_dec "?" "?") as [_|N]; [now destruct q | congruence].
  - cbn [index String.prefix] in H.
    destruct (ascii_dec "?" c) as [->|Hc].
    + destruct s; discriminate.
    + destruct (index 0 "?" s) as [n|]; [discriminate|].
      now rewrite (IH eq_refl).
Qed.

Lemma append_assoc (a b c : string) : ((a ++ b) ++ c = a ++ (b ++ c))%string.
Proof.
  induction a as [|x a IH]; [reflexivity|].
  now rewrite !append_String, IH.
Qed.

Lemma index_query_append_None (a b : string) :
  index 0 "?" (a ++ b) = None -> index 0 "?" b = None.
Proof.
  induction a as [|c a IH]; intros H; [exact H|].
  rewrite append_String in H. cbn [index String.prefix] in H.
  destruct (ascii_dec "?" c); [destruct (a ++ b)%string; discriminate|].
  destruct (index 0 "?" (a ++ b)) as [k|]; [discriminate|]. now apply IH.
Qed.

(** X13.  For a text [u] that has a scheme and no ['?'], appending a
    query changes nothing: the recipient computed for [u?q] is the one
    computed for [u], whatever [q] is. *)
Theorem decode_ignores_query (u q : ustring) :
  Glib.uri_parse_scheme u <> EmptyString ->
  find u "?" = None ->
  decode (u ++ String "?" q)%string = decode u.
Proof.
  intros H Hq. unfold Glib.uri_parse_scheme in H.
  destruct (Glib.g_uri_parse_scheme u) as [s|] eqn:Hs; [|congruence].
  destruct (decode_with_scheme u s Hs) as (rest & Eu & _ & Du).
  assert (Hs' : Glib.g_uri_parse_scheme (u ++ String "?" q) = Some s).
  { unfold Glib.g_uri_parse_scheme in *. destruct u as [|c r]; [discriminate|].
    rewrite append_String. destruct (Glib.g_ascii_isalpha c); [|discriminate].
    rewrite <- append_String.
    destruct (Glib.scheme_scan (String c r)) as [n|] eqn:Hn; [|discriminate].
    rewrite (scheme_scan_append _ _ _ Hn).
    assert (Hsub : s = substring 0 n (String c r)) by congruence.
    clear Hs. subst s.
    destruct (scheme_scan_split _ _ Hn) as (p & rest' & E & <-).
    rewrite E, append_assoc, !substring_append_l. reflexivity. }
  destruct (decode_with_scheme _ s Hs') as (rest' & Eu' & _ & Du').
  rewrite Du, Du'. f_equal.
  rewrite Eu, append_assoc, append_String in Eu'.
  assert (Er : rest' = (rest ++ String "?" q)%string).
  { clear -Eu'. induction s as [|c s IH].
    - change (EmptyString ++ ?x)%string with x in Eu'. now injection Eu' as <-.
    - rewrite !append_String in Eu'. injection Eu' as Eu'. now apply IH. }
  subst rest'. unfold find in Hq. rewrite Eu in Hq.
  apply index_query_append_None in Hq. cbn [index String.prefix] in Hq.
  destruct (ascii_dec "?" ":") as [Hc|_]; [discriminate|].
  destruct (index 0 "?" rest) as [n|] eqn:Hr; [discriminate|].
  unfold up_to_query, find. rewrite Hr, (index_query_append rest q Hr).
  apply substring_append_l.
Qed.

Lemma decode_ignores_query_witness :
  decode "mailto:foo@bar.com?cc=x@y.z&subject=hi" = decode "mailto:foo@bar.com".
Proof.
  apply (decode_ignores_query "mailto:foo@bar.com" "cc=x@y.z&subject=hi").
  - discriminate.
  - reflexivity.
Defined.

(** ** The decoder against the specification *)

Lemma substring_0_ge (s : string) (m : nat) :
  String.length s <= m -> substring 0 m s = s.
Proof.
  revert m.
  induction s as [|c s IH]; intros [|m] H; simpl in *;
    try reflexivity; try lia.
  rewrite IH by lia. reflexivity.
Qed.

Lemma substring_skip (p q : string) (m : nat) :
  substring (S (String.length p)) m (p ++ String ":" q) = substring 0 m q.
Proof. induction p as [|c p IH]; [reflexivity | exact IH]. Qed.

(** For every text that has a scheme, the recipient [send_mailto]
    extracts is the recipient of the specification with the colon in
    front. *)
Lemma decode_keeps_colon_of_spec (raw s : ustring) :
  Glib.g_uri_parse_scheme raw = Some s ->
  decode raw = String ":" (spec_decode raw).
Proof.
  intros H. destruct (decode_with_scheme raw s H) as (rest & E & _ & D).
  rewrite D. unfold spec_decode. rewrite H. f_equal. f_equal.
  rewrite E at 2. rewrite substring_skip, substring_0_ge; [reflexivity|].
  rewrite E, length_append. simpl. lia.
Qed.

(** For every text without a scheme the two agree. *)
Lemma decode_agrees_without_scheme (raw : ustring) :
  Glib.g_uri_parse_scheme raw = None -> decode raw = spec_decode raw.
Proof.
  intros H. unfold spec_decode. rewrite H. apply decode_no_scheme.
  unfold Glib.uri_parse_scheme. now rewrite H.
Qed.

(** ** The test entry point *)

Lemma main_test_exact (w : World) (st : Astroid) :
  main_test w st =
  (Val tt,
   {| activated := activated st;
      m_config := Some (new_Config w config_test);
      logf_is_open := logf_is_open st;
      plugin_manager := true; actions := true;
      windows := windows st;
      trace :=
        trace st ++
        [config_loaded config_test;
         init Date []; init Utils []; init Db []; init SavedSearches [];
         init AccountManager []; init PluginManager [false; true];
         init ActionManager []; init Poll [false]] |}).
Proof.
  unfold main_test. repeat mstep. unfold emit. st_simpl.
  rewrite <- !app_assoc. reflexivity.
Qed.

(** X14.  The test entry point [main_test] leaves the application object
    as [main --test-config] has it once set up in the first instance: the
    same configuration is loaded and the same subsystems are set up in the
    same order, with the one exception that the keybindings are left out.
    It creates and registers no application, connects no handler and opens
    no window, and [in_test] then answers with the test flag of the
    configuration; a following [on_quit] tears down the action manager,
    the saved searches and the plugin manager. *)
Theorem main_test_is_main_without_keybindings (w : World)
    (vm : variables_map) :
  vm_help vm = false -> vm_new_config vm = false ->
  registration w = Primary ->
  vm_config vm = None -> vm_test_config vm = true ->
  exists st tst,
    run w (parsed vm) = (Val 0%Z, st)
    /\ main_test w astroid0 = (Val tt, tst)
    /\ m_config tst = m_config st
    /\ inits (trace tst) =
         List.filter (fun s => negb (bool_decide (s = Keybindings)))
           (inits (trace st))
    /\ core (trace tst) =
         [config_loaded config_test;
          init Date []; init Utils []; init Db []; init SavedSearches [];
          init AccountManager []; init PluginManager [false; true];
          init ActionManager []; init Poll [false]]
    /\ windows tst = []
    /\ fst (in_test tst) = Val (test (new_Config w config_test))
    /\ teardowns (trace (snd (on_quit tst))) =
         [ActionManager; SavedSearches; PluginManager].
Proof.
  intros Hh Hn Hr Hc Ht.
  destruct (run_primary w vm Hh Hn Hr (or_introl Hc))
    as (st & E & I & _ & _ & _).
  exists st. eexists. split; [exact E|].
  split; [exact (main_test_exact w astroid0)|].
  cbn [m_config trace windows].
  rewrite (run_primary_exact w vm Hh Hn Hr (or_introl Hc)) in E.
  injection E as <-. cbn [m_config trace] in *.
  unfold config_source in *. rewrite Hc, Ht in *.
  split; [reflexivity|]. split; [now rewrite I|].
  split; [reflexivity|]. split; [reflexivity|]. split; [reflexivity|].
  rewrite on_quit_exact. reflexivity.
Qed.

Lemma main_test_is_main_without_keybindings_witness :
  inits (trace (snd (main_test (example_world false Primary [activate])
                       astroid0)))
  = [Date; Utils; Db; SavedSearches; AccountManager; PluginManager;
     ActionManager; Poll].
Proof.
  destruct (main_test_is_main_without_keybindings
              (example_world false Primary [activate]) vm_test
              eq_refl eq_refl eq_refl eq_refl eq_refl)
    as (st & tst & E & T & _ & I & _).
  rewrite T. cbn [snd]. rewrite I.
  replace st with (snd (run (example_world false Primary [activate])
                          (parsed vm_test))) by (now rewrite E).
  vm_compute. reflexivity.
Defined.
